(** * Sentiment dashboard: the event log store and its analytics

    A shallow embedding of [streamlit_app.py].  Python [str] values are
    sequences of Unicode code points; the backing file [DATA_FILE] is held
    decoded (UTF-8 is a bijection on the text the program writes), and the
    file system is the single optional file the program touches.  The
    remote classifier and the clock are inputs of the script. *)

From Stdlib Require Import String Ascii DecimalString.
From stdpp Require Import gmap list numbers.

Local Open Scope N_scope.

(** ** Python strings *)

Abbreviation str := (list N).

(** An ASCII literal of the source as a sequence of code points. *)
Definition u (s : string) : str := N_of_ascii <$> list_ascii_of_string s.

Definition LF : N := 10.
Definition CR : N := 13.
Definition PIPE : N := 124.
Definition COMMA : N := 44.
Definition DQUOTE : N := 34.

(** [str.isspace] on one code point: the characters [str.strip()] removes. *)
Definition isspace (c : N) : bool :=
  ((9 <=? c) && (c <=? 13)) || ((28 <=? c) && (c <=? 32))
  || (c =? 133) || (c =? 160) || (c =? 5760)
  || ((8192 <=? c) && (c <=? 8202))
  || (c =? 8232) || (c =? 8233) || (c =? 8239) || (c =? 8287) || (c =? 12288).

Fixpoint lstrip (s : str) : str :=
  match s with
  | [] => []
  | c :: s' => if isspace c then lstrip s' else s
  end.

Definition rstrip (s : str) : str := rev (lstrip (rev s)).

(** [s.strip()] *)
Definition strip (s : str) : str := rstrip (lstrip s).

(** [s.partition(sep)] for a one-character separator: the text before the
    first separator and the text after it, or [None] when there is none. *)
Fixpoint partition (sep : N) (s : str) : option (str * str) :=
  match s with
  | [] => None
  | c :: s' =>
      if c =? sep then Some ([], s')
      else match partition sep s' with
           | Some (pre, post) => Some (c :: pre, post)
           | None => None
           end
  end.

(** [s.split(sep, maxsplit)] for a one-character separator. *)
Fixpoint split (sep : N) (maxsplit : nat) (s : str) : list str :=
  match maxsplit with
  | O => [s]
  | S k =>
      match partition sep s with
      | Some (pre, post) => pre :: split sep k post
      | None => [s]
      end
  end.

(** [sep.join(parts)] *)
Fixpoint join (sep : str) (parts : list str) : str :=
  match parts with
  | [] => []
  | [p] => p
  | p :: ps => p ++ sep ++ join sep ps
  end.

(** [s.upper()], exact on ASCII; the script applies it only to a label
    that was found among the (ASCII) keys of [SENTIMENT_EMOJIS]. *)
Definition upper_char (c : N) : N :=
  if (97 <=? c) && (c <=? 122) then c - 32 else c.

Definition upper (s : str) : str := upper_char <$> s.

(** [str(n)] for an [int]. *)
Definition str_of_int (z : Z) : str := u (NilZero.string_of_int (Z.to_int z)).

(** ** Text files *)

(** Reading in text mode with universal newlines: ["\r\n"] and a lone
    ["\r"] both arrive as ["\n"]. *)
Fixpoint universal_newlines (s : str) : str :=
  match s with
  | [] => []
  | c :: s' =>
      if c =? CR then
        LF :: match s' with
              | d :: s'' => if d =? LF then universal_newlines s''
                            else universal_newlines s'
              | [] => []
              end
      else c :: universal_newlines s'
  end.

(** Iterating over a file object: the lines of the text, each with its
    terminating ["\n"], the last one without when the text does not end
    with one. *)
Fixpoint lines (s : str) : list str :=
  match s with
  | [] => []
  | c :: s' =>
      if c =? LF then [c] :: lines s'
      else match lines s' with
           | [] => [[c]]
           | l :: ls => (c :: l) :: ls
           end
  end.

Definition readlines (content : str) : list str :=
  lines (universal_newlines content).

(** ** The clock *)

Record datetime := mkDatetime {
  year : N; month : N; day : N; hour : N; minute : N; second : N
}.

Definition digit (n : N) : N := 48 + n mod 10.
Arguments digit : simpl never.
Definition pad2 (n : N) : str := [digit (n / 10); digit n].
Definition pad4 (n : N) : str :=
  [digit (n / 1000); digit (n / 100); digit (n / 10); digit n].

(** [dt.strftime("%Y-%m-%d %H:%M:%S")] *)
Definition strftime_log (dt : datetime) : str :=
  pad4 (year dt) ++ u "-" ++ pad2 (month dt) ++ u "-" ++ pad2 (day dt)
  ++ u " " ++ pad2 (hour dt) ++ u ":" ++ pad2 (minute dt) ++ u ":"
  ++ pad2 (second dt).

(** [dt.strftime('%Y%m%d_%H%M%S')] *)
Definition strftime_file (dt : datetime) : str :=
  pad4 (year dt) ++ pad2 (month dt) ++ pad2 (day dt) ++ u "_"
  ++ pad2 (hour dt) ++ pad2 (minute dt) ++ pad2 (second dt).

Local Close Scope N_scope.

(** ** The world the script runs in *)

Inductive exn :=
| KeyError (key : str)
| ValueError
| FileNotFoundError
| RerunException.

(** One table row: the dict built by [load_data]. *)
Record Row := mkRow { timestamp : str; sentiment : str; message : str }.

(** What [requests.post(...)] followed by [response.json()['result']]
    can do.  The service is specified to answer a string; JSON [null] is
    kept as well since the script tests the answer for truth. *)
Inductive PyVal := PyNone | PyStr (s : str).

Inductive JsonResult :=
| BadBody (msg : str)          (* [.json()] or [['result']] raised *)
| Result (v : PyVal).

Inductive HttpOutcome :=
| Transport (msg : str)        (* [requests.post] raised *)
| Response (status_code : Z) (body : JsonResult).

(** The calls of the widget library that show something.  Layout-only
    calls (titles, headers, columns, the spinner) are left out. *)
Inductive UiEvent :=
| StError (text : str)
| StSuccess (text : str)
| StInfo (text : str)
| StWrite (text : str)
| StDivider
| StMetric (label : str) (value : nat)
| StPie (counts : gmap str nat)
| StBar (counts : gmap str nat)
| StLine (series : list (Z * nat))
| StDownload (data : str) (file_name : str)
| StDataframe (table : list Row).

Record World := mkWorld {
  file : option str;           (* content of DATA_FILE, [None] when absent *)
  ui : list UiEvent;           (* what was rendered, in order *)
  posted : list str            (* messages sent to the classifier *)
}.

Inductive res (A : Type) :=
| Ok (a : A)
| Raise (e : exn).
Arguments Ok {A} a.
Arguments Raise {A} e.

Definition M (A : Type) : Type := World → res A * World.

#[global] Instance M_ret : MRet M := λ A a w, (Ok a, w).
#[global] Instance M_bind : MBind M := λ A B k c w,
  match c w with
  | (Ok a, w') => k a w'
  | (Raise e, w') => (Raise e, w')
  end.

Definition raise {A} (e : exn) : M A := λ w, (Raise e, w).

Fixpoint for_each {A} (l : list A) (body : A → M unit) : M unit :=
  match l with
  | [] => mret tt
  | x :: l' => body x ;; for_each l' body
  end.

(** *** The file system *)

Definition os_path_exists : M bool := λ w,
  (Ok (match file w with Some _ => true | None => false end), w).

Definition os_remove : M unit := λ w,
  match file w with
  | Some _ => (Ok tt, mkWorld None (ui w) (posted w))
  | None => (Raise FileNotFoundError, w)
  end.

(** [with open(DATA_FILE, "a") as f: f.write(text)], for text that UTF-8
    can encode ([encodable] below): on a lone surrogate the real write
    raises and writes nothing, which this does not show. *)
Definition open_append_write (text : str) : M unit := λ w,
  (Ok tt, mkWorld (Some (default [] (file w) ++ text)) (ui w) (posted w)).

(** [with open(DATA_FILE, "r") as f: for line in f] *)
Definition open_read_lines : M (list str) := λ w,
  match file w with
  | Some content => (Ok (readlines content), w)
  | None => (Raise FileNotFoundError, w)
  end.

(** *** The widgets and the network *)

Definition st (e : UiEvent) : M unit := λ w,
  (Ok tt, mkWorld (file w) (ui w ++ [e]) (posted w)).

Definition st_rerun : M unit := raise RerunException.

Definition requests_post (api : str → HttpOutcome) (msg : str)
  : M HttpOutcome := λ w,
  (Ok (api msg), mkWorld (file w) (ui w) (posted w ++ [msg])).

(** ** Data frames *)

Record DataFrame := mkDF { columns : list str; rows : list Row }.

Definition COLUMNS : list str := [u "timestamp"; u "sentiment"; u "message"].

(** [pd.DataFrame(columns=[...])] *)
Definition DataFrame_columns (cols : list str) : DataFrame := mkDF cols [].

(** [pd.DataFrame(data)] for a list of the dicts above: the columns are
    the keys of the dicts, and there is none when the list is empty. *)
Definition DataFrame_records (data : list Row) : DataFrame :=
  mkDF (match data with [] => [] | _ :: _ => COLUMNS end) data.

(** [df.empty] *)
Definition empty_df (df : DataFrame) : bool :=
  match columns df, rows df with
  | _ :: _, _ :: _ => false
  | _, _ => true
  end.

(** [df.tail(n)] *)
Definition tail (n : nat) (l : list Row) : list Row := drop (length l - n) l.

(** [df[df['sentiment'] == label]] *)
Definition where_sentiment (label : str) (l : list Row) : list Row :=
  List.filter (λ r, bool_decide (sentiment r = label)) l.

(** [series.value_counts()] as a mapping; the order in which the series
    lists its entries is not kept. *)
Definition value_counts (xs : list str) : gmap str nat :=
  foldl (λ m x, <[x := S (default 0 (m !! x))]> m) ∅ xs.

(** A field as the csv writer emits it under minimal quoting: quoted
    when it holds the delimiter, the quote character or a line break,
    with quote characters doubled. *)
Definition needs_quote (c : N) : bool :=
  bool_decide (c = COMMA) || bool_decide (c = DQUOTE)
  || bool_decide (c = LF) || bool_decide (c = CR).

Definition csv_field (s : str) : str :=
  if existsb needs_quote s
  then [DQUOTE] ++ mjoin ((λ c, if bool_decide (c = DQUOTE)
                                then [DQUOTE; DQUOTE] else [c]) <$> s)
       ++ [DQUOTE]
  else s.

Definition csv_line (fields : list str) : str :=
  join [COMMA] (csv_field <$> fields) ++ [LF].

Definition cells (r : Row) : list str := [timestamp r; sentiment r; message r].

(** [df.to_csv(index=False)] *)
Definition to_csv (df : DataFrame) : str :=
  csv_line (columns df) ++ mjoin ((λ r, csv_line (cells r)) <$> rows df).

(** [df.set_index('timestamp').resample('H')['sentiment'].count()] on the
    hour buckets of the rows: every hour from the first to the last one
    observed, with the number of rows in it. *)
Definition resample_hourly (hs : list Z) : list (Z * nat) :=
  match hs with
  | [] => []
  | h :: t =>
      let lo := foldl Z.min h t in
      let hi := foldl Z.max h t in
      (λ k, (k, length (List.filter (Z.eqb k) hs)))
        <$> seqZ lo (hi - lo + 1)
  end.

(** ** The program *)

(** [SENTIMENT_EMOJIS] *)
Definition SENTIMENT_EMOJIS : gmap str (list str) :=
  <[u "positive" := [[128522%N]; [128077%N]; [10024%N]]]>
  (<[u "negative" := [[128542%N]; [128078%N]; [10060%N]]]>
  (<[u "neutral" := [[128528%N]; [9878%N; 65039%N]; [129300%N]]]> ∅)).

(** [SENTIMENT_EMOJIS[key]] *)
Definition emojis_of (key : str) : M (list str) :=
  match SENTIMENT_EMOJIS !! key with
  | Some l => mret l
  | None => raise (KeyError key)
  end.

(** Truth of a value in an [if]. *)
Definition truthy_str (s : str) : bool :=
  match s with [] => false | _ :: _ => true end.

(** [analyze_sentiment(message)].  Whatever the [try] block raises comes
    from the request or from decoding its answer, and the [except]
    clause reports it and returns [None]. *)
Definition analyze_sentiment (api : str → HttpOutcome) (msg : str)
  : M PyVal :=
  response ← requests_post api msg;
  match response with
  | Transport e => st (StError (u "Error: " ++ e)) ;; mret PyNone
  | Response status_code body =>
      if bool_decide (status_code = 200%Z) then
        match body with
        | Result v => mret v
        | BadBody e => st (StError (u "Error: " ++ e)) ;; mret PyNone
        end
      else
        st (StError (u "API Error: " ++ str_of_int status_code)) ;;
        mret PyNone
  end.

(** [save_to_file(message, sentiment)], at clock reading [now]. *)
Definition save_to_file (now : datetime) (msg label : str) : M unit :=
  let timestamp := strftime_log now in
  open_append_write (timestamp ++ u "|" ++ label ++ u "|" ++ msg ++ [LF]).

(** The body of the loop of [load_data]: one line, the table so far. *)
Definition load_line (data : list Row) (line : str) : list Row :=
  let parts := split PIPE 2 (strip line) in
  if bool_decide (length parts = 3)
  then data ++ [mkRow (parts !!! 0) (parts !!! 1) (parts !!! 2)]
  else data.

(** [load_data()] *)
Definition load_data : M DataFrame :=
  present ← os_path_exists;
  if negb present then mret (DataFrame_columns COLUMNS)
  else
    file_lines ← open_read_lines;
    mret (DataFrame_records (foldl load_line [] file_lines)).

(** [clear_history()] *)
Definition clear_history : M unit :=
  present ← os_path_exists;
  if (present : bool) then os_remove else mret tt.

(** [export_data()] *)
Definition export_data : M str :=
  df ← load_data;
  mret (to_csv df).

(** [df.tail(5).iloc[::-1]] *)
Definition recent_df (df : DataFrame) : list Row := rev (tail 5 (rows df)).

(** The handler of the analyze button (the block under
    [if analyze_btn and message]). *)
Definition on_analyze (api : str → HttpOutcome) (now : datetime)
    (analyze_btn : bool) (msg : str) : M unit :=
  if analyze_btn && truthy_str msg then
    answer ← analyze_sentiment api msg;
    match answer with
    | PyNone => mret tt
    | PyStr label =>
        if truthy_str label then
          save_to_file now msg label ;;
          found ← emojis_of label;
          let emojis := join (u " ") found in
          let text := u "**Sentiment: " ++ upper label ++ u "** " ++ emojis in
          (if bool_decide (label = u "positive") then st (StSuccess text)
           else if bool_decide (label = u "negative") then st (StError text)
           else st (StInfo text)) ;;
          st (StWrite (u "**Message:** " ++ msg))
        else mret tt
    end
  else mret tt.

(** One entry of the feed of recent messages. *)
Definition show_recent (row : Row) : M unit :=
  found ← emojis_of (sentiment row);
  let emojis := join (u " ") found in
  st (StWrite (u "**" ++ timestamp row ++ u "** - "
               ++ upper (sentiment row) ++ u " " ++ emojis)) ;;
  st (StWrite (u "_" ++ message row ++ u "_")) ;;
  st StDivider.

(** The first tab, top to bottom. *)
Definition tab1 (api : str → HttpOutcome) (now : datetime)
    (msg : str) (analyze_btn clear_btn : bool) : M unit :=
  (if clear_btn then
     clear_history ;; st (StSuccess (u "History cleared!")) ;; st_rerun
   else mret tt) ;;
  on_analyze api now analyze_btn msg ;;
  df ← load_data;
  if negb (empty_df df) then for_each (recent_df df) show_recent
  else mret tt.

Section Analytics.

(** The hour (counted from the epoch) of a timestamp as
    [pd.to_datetime] reads it, [None] where it raises. *)
Variable to_hour : str → option Z.

(** The time series of the second tab: [None] is the conversion
    raising.  The conversion is taken string by string, each one giving
    an hour or making it raise; that it reads the format off the first
    row, and that it can turn a string into a missing date whose row the
    resampling drops, is not shown. *)
Definition hourly_series (l : list Row) : option (list (Z * nat)) :=
  resample_hourly <$> mapM to_hour (timestamp <$> l).

(** The second tab, top to bottom.  The table shown last keeps the
    timestamps as text; the script shows them converted when the time
    series was computed. *)
Definition tab2 (now : datetime) (clear_all_btn : bool) : M unit :=
  df ← load_data;
  if empty_df df then
    st (StInfo (u "No data available. Analyze some messages first!"))
  else
    st (StMetric (u "Total Messages") (length (rows df))) ;;
    st (StMetric (u "Positive " ++ [128522%N])
                 (length (where_sentiment (u "positive") (rows df)))) ;;
    st (StMetric (u "Negative " ++ [128542%N])
                 (length (where_sentiment (u "negative") (rows df)))) ;;
    st (StMetric (u "Neutral " ++ [128528%N])
                 (length (where_sentiment (u "neutral") (rows df)))) ;;
    let sentiment_counts := value_counts (sentiment <$> rows df) in
    st (StPie sentiment_counts) ;;
    st (StBar sentiment_counts) ;;
    (if bool_decide (1 < length (rows df)) then
       match hourly_series (rows df) with
       | Some series => st (StLine series)
       | None => raise ValueError
       end
     else mret tt) ;;
    csv_data ← export_data;
    st (StDownload csv_data
          (u "sentiment_data_" ++ strftime_file now ++ u ".csv")) ;;
    (if clear_all_btn then
       clear_history ;; st (StSuccess (u "All data cleared!")) ;; st_rerun
     else mret tt) ;;
    st (StDataframe (rev (rows df))).

End Analytics.

(** A store with nothing else in it, and what a run leaves in the file. *)
Definition store (content : option str) : World := mkWorld content [] [].

Definition run {A} (c : M A) (w : World) : World := snd (c w).
Definition result {A} (c : M A) (w : World) : res A := fst (c w).

(** ** What the claims are stated with *)

(** The three labels the classifier is specified to answer. *)
Definition LABELS : list str := [u "positive"; u "negative"; u "neutral"].

(** The rows a load returns ([[]] would also stand for a load that
    raises; [load_data_total] shows there is none). *)
Definition loaded (w : World) : list Row :=
  match result load_data w with
  | Ok df => rows df
  | Raise _ => []
  end.

(** The row [save_to_file] is meant to add. *)
Definition row_of (now : datetime) (msg label : str) : Row :=
  mkRow (strftime_log now) label msg.

(** The row a kept line of the file becomes. *)
Definition row_of_line (line : str) : Row :=
  let parts := split PIPE 2 (strip line) in
  mkRow (parts !!! 0) (parts !!! 1) (parts !!! 2).

(** Number of occurrences of a character. *)
Definition occurrences (c : N) (s : str) : nat :=
  length (List.filter (N.eqb c) s).

Definition is_linebreak (c : N) : bool := (c =? LF)%N || (c =? CR)%N.

(** Text that one line of the file can carry unchanged: no line break in
    it and no white space at its end. *)
Definition single_line (s : str) : bool := negb (existsb is_linebreak s).

Definition no_trailing_space (s : str) : bool :=
  match rev s with
  | [] => true
  | c :: _ => negb (isspace c)
  end.

Definition line_safe (s : str) : bool := single_line s && no_trailing_space s.

(** The file is absent, empty, or ends with a line feed: what every
    append leaves behind. *)
Definition newline_terminated (content : option str) : bool :=
  match content with
  | None => true
  | Some s => match rev s with
              | [] => true
              | c :: _ => (c =? LF)%N
              end
  end.

(** The ways the classification call fails, with the text the spec says
    is reported for each. *)
Inductive failure : HttpOutcome → str → Prop :=
| failure_transport e :
    failure (Transport e) (u "Error: " ++ e)
| failure_status code body :
    code ≠ 200%Z →
    failure (Response code body) (u "API Error: " ++ str_of_int code)
| failure_parse e :
    failure (Response 200 (BadBody e)) (u "Error: " ++ e).

(** A run of appends, oldest first. *)
Definition append_all (appends : list (datetime * str * str)) (w : World)
  : World :=
  foldl (λ w a, run (save_to_file a.1.1 a.1.2 a.2) w) w appends.

(** The two things the program does to the file. *)
Inductive StoreOp :=
| OpAppend (now : datetime) (msg label : str)
| OpClear.

Definition apply_op (w : World) (op : StoreOp) : World :=
  match op with
  | OpAppend now msg label => run (save_to_file now msg label) w
  | OpClear => run clear_history w
  end.

(** Text that UTF-8 can encode: no code point of the surrogate range,
    none beyond the last one of Unicode. *)
Definition encodable (s : str) : bool :=
  forallb (λ c, (c <? 55296)%N || ((57343 <? c)%N && (c <=? 1114111)%N)) s.

(** * Properties *)

(** ** Characters and stripping *)

Ltac cmp_false :=
  repeat match goal with
    | |- context [N.leb ?a ?b] => rewrite (proj2 (N.leb_gt a b)) by lia
    | |- context [N.eqb ?a ?b] => rewrite (proj2 (N.eqb_neq a b)) by lia
    end;
  rewrite ?andb_false_r; try reflexivity.

Lemma isspace_printable c : (33 ≤ c ≤ 126)%N → isspace c = false.
Proof. intros H. unfold isspace. cmp_false. Qed.

Lemma digit_range n : (48 ≤ digit n ≤ 57)%N.
Proof.
  unfold digit.
  assert (n mod 10 < 10)%N as H by (apply N.mod_upper_bound; lia).
  revert H. generalize (n mod 10)%N. intros m H. lia.
Qed.

Lemma isspace_digit n : isspace (digit n) = false.
Proof. apply isspace_printable. pose proof (digit_range n). lia. Qed.

Lemma lstrip_head c s : isspace c = false → lstrip (c :: s) = c :: s.
Proof. intros H. simpl. now rewrite H. Qed.

Lemma rstrip_snoc_space s c : isspace c = true → rstrip (s ++ [c]) = rstrip s.
Proof.
  intros H. unfold rstrip. rewrite rev_app_distr. simpl. now rewrite H.
Qed.

Lemma rstrip_id s : no_trailing_space s = true → rstrip s = s.
Proof.
  unfold no_trailing_space, rstrip. intros H.
  destruct (rev s) as [|c r] eqn:E.
  - rewrite <- (rev_involutive s), E. reflexivity.
  - apply negb_true_iff in H. simpl. rewrite H.
    rewrite <- E. apply rev_involutive.
Qed.

Lemma no_trailing_space_snoc s c :
  isspace c = false → no_trailing_space (s ++ [c]) = true.
Proof.
  intros H. unfold no_trailing_space. rewrite rev_app_distr. simpl.
  now rewrite H.
Qed.

Lemma no_trailing_space_app a b :
  b ≠ [] → no_trailing_space b = true → no_trailing_space (a ++ b) = true.
Proof.
  unfold no_trailing_space. intros Hb H. rewrite rev_app_distr.
  destruct (rev b) as [|c r] eqn:E.
  - destruct Hb. rewrite <- (rev_involutive b), E. reflexivity.
  - exact H.
Qed.

(** Stripping leaves every character that is not white space where it
    is, so it does not change how often one occurs. *)
Lemma occurrences_app c a b :
  occurrences c (a ++ b) = occurrences c a + occurrences c b.
Proof. unfold occurrences. now rewrite List.filter_app, length_app. Qed.

Lemma occurrences_rev c s : occurrences c (rev s) = occurrences c s.
Proof.
  induction s as [|d s IH]; [reflexivity|].
  simpl rev. rewrite occurrences_app, IH.
  change (d :: s) with ([d] ++ s). rewrite occurrences_app. lia.
Qed.

Lemma occurrences_lstrip c s :
  isspace c = false → occurrences c (lstrip s) = occurrences c s.
Proof.
  intros Hc. induction s as [|d s IH]; [reflexivity|].
  simpl. destruct (isspace d) eqn:Hd; [|reflexivity].
  rewrite IH. unfold occurrences. simpl.
  destruct (N.eqb_spec c d) as [->|]; [congruence|reflexivity].
Qed.

Lemma occurrences_strip c s :
  isspace c = false → occurrences c (strip s) = occurrences c s.
Proof.
  intros Hc. unfold strip, rstrip.
  now rewrite occurrences_rev, occurrences_lstrip, occurrences_rev,
    occurrences_lstrip.
Qed.

(** ** Splitting *)

Lemma partition_None sep s :
  partition sep s = None ↔ occurrences sep s = 0.
Proof.
  unfold occurrences. induction s as [|c s IH]; [easy|].
  simpl. rewrite (N.eqb_sym sep c).
  destruct (c =? sep)%N; simpl; [easy|].
  destruct (partition sep s) as [[pre post]|]; [|tauto].
  split; [easy|]. intros H. apply IH in H. discriminate.
Qed.

Lemma partition_Some sep s pre post :
  partition sep s = Some (pre, post) →
  s = pre ++ sep :: post ∧ occurrences sep pre = 0.
Proof.
  revert pre. induction s as [|c s IH]; intros pre; [easy|].
  simpl. destruct (N.eqb_spec c sep) as [->|Hne].
  - intros [= <- <-]. easy.
  - destruct (partition sep s) as [[pre' post']|]; [|easy].
    intros [= <- <-]. destruct (IH pre' eq_refl) as [-> H0].
    split; [reflexivity|]. unfold occurrences in *. simpl.
    destruct (N.eqb_spec sep c); [congruence|exact H0].
Qed.

Lemma partition_first sep pre post :
  occurrences sep pre = 0 →
  partition sep (pre ++ sep :: post) = Some (pre, post).
Proof.
  unfold occurrences. induction pre as [|c pre IH]; simpl.
  - now rewrite N.eqb_refl.
  - rewrite (N.eqb_sym sep c). destruct (c =? sep)%N; simpl; [easy|].
    intros H. now rewrite IH.
Qed.

Lemma length_split sep k s :
  length (split sep k s) = S (min k (occurrences sep s)).
Proof.
  revert s. induction k as [|k IH]; intros s; [reflexivity|].
  simpl. destruct (partition sep s) as [[pre post]|] eqn:E.
  - apply partition_Some in E as [-> H0].
    simpl. rewrite IH, occurrences_app, H0.
    unfold occurrences at 2. simpl. rewrite N.eqb_refl. simpl.
    reflexivity.
  - apply partition_None in E. rewrite E. reflexivity.
Qed.

Lemma split_three (a b c : str) :
  occurrences PIPE a = 0 → occurrences PIPE b = 0 →
  split PIPE 2 (a ++ u "|" ++ b ++ u "|" ++ c) = [a; b; c].
Proof.
  intros Ha Hb. change (u "|") with [PIPE]. simpl.
  rewrite (partition_first PIPE a _ Ha), (partition_first PIPE b _ Hb).
  reflexivity.
Qed.

(** ** Lines of a text file *)

Lemma universal_newlines_id s :
  existsb (N.eqb CR) s = false → universal_newlines s = s.
Proof.
  induction s as [|c s IH]; [reflexivity|].
  cbn [existsb universal_newlines lines app]. intros H.
  apply orb_false_iff in H as [Hc Hs].
  rewrite N.eqb_sym in Hc. rewrite Hc. now rewrite IH.
Qed.

(** A line feed in the file ends a line whatever follows it: the text
    after it is decoded on its own. *)
Lemma universal_newlines_LF_fuel n x :
  length x ≤ n →
  ∃ y, ∀ b, universal_newlines (x ++ LF :: b) = y ++ LF :: universal_newlines b.
Proof.
  revert x. induction n as [|n IH]; intros x Hn.
  - destruct x; [|simpl in Hn; lia]. now exists [].
  - destruct x as [|c x]; [now exists []|].
    simpl in Hn. destruct (N.eqb_spec c CR) as [->|Hc].
    + destruct x as [|d x].
      * exists []. intros b. reflexivity.
      * destruct (N.eqb_spec d LF) as [->|Hd].
        -- destruct (IH x) as [y Hy]; [simpl in Hn; lia|].
           exists (LF :: y). intros b. simpl. now rewrite Hy.
        -- destruct (IH (d :: x)) as [y Hy]; [simpl in *; lia|].
           exists (LF :: y). intros b.
           change ((CR :: d :: x) ++ LF :: b) with (CR :: d :: (x ++ LF :: b)).
           cbn [universal_newlines]. rewrite N.eqb_refl.
           destruct (N.eqb_spec d LF) as [|_]; [contradiction|].
           specialize (Hy b). cbn [app universal_newlines] in Hy.
           cbn [app]. now rewrite Hy.
    + destruct (IH x) as [y Hy]; [lia|].
      exists (c :: y). intros b. simpl.
      destruct (N.eqb_spec c CR); [contradiction|]. now rewrite Hy.
Qed.

Lemma universal_newlines_LF x :
  ∃ y, ∀ b, universal_newlines (x ++ LF :: b) = y ++ LF :: universal_newlines b.
Proof. apply (universal_newlines_LF_fuel (length x)). lia. Qed.

Lemma lines_nonempty s : s ≠ [] → lines s ≠ [].
Proof.
  destruct s as [|c s]; [easy|]. intros _. simpl.
  destruct (c =? LF)%N; [easy|]. now destruct (lines s).
Qed.

Lemma lines_LF y b : lines (y ++ LF :: b) = lines (y ++ [LF]) ++ lines b.
Proof.
  induction y as [|c y IH]; [reflexivity|].
  simpl. destruct (c =? LF)%N.
  - now rewrite IH.
  - rewrite IH. pose proof (lines_nonempty (y ++ [LF])) as Hne.
    destruct (lines (y ++ [LF])); [|reflexivity].
    destruct Hne; [now destruct y|reflexivity].
Qed.

Lemma lines_single l :
  existsb (N.eqb LF) l = false → lines (l ++ [LF]) = [l ++ [LF]].
Proof.
  induction l as [|c l IH]; [reflexivity|].
  cbn [existsb universal_newlines lines app]. intros H.
  apply orb_false_iff in H as [Hc Hs].
  rewrite N.eqb_sym in Hc. rewrite Hc. now rewrite IH.
Qed.

Lemma newline_terminated_inv s :
  newline_terminated (Some s) = true → s = [] ∨ ∃ x, s = x ++ [LF].
Proof.
  simpl. destruct (rev s) as [|c r] eqn:E; intros H.
  - left. rewrite <- (rev_involutive s), E. reflexivity.
  - right. apply N.eqb_eq in H as ->. exists (rev r).
    rewrite <- (rev_involutive s), E. reflexivity.
Qed.

(** Appending to a file that ends with a line feed adds lines after
    the ones already there and changes none of them. *)
Lemma readlines_app content chunk :
  newline_terminated (Some content) = true →
  readlines (content ++ chunk) = readlines content ++ readlines chunk.
Proof.
  intros H. apply newline_terminated_inv in H as [->|[x ->]]; [reflexivity|].
  unfold readlines. destruct (universal_newlines_LF x) as [y Hy].
  rewrite <- app_assoc. simpl. rewrite Hy, (Hy []). simpl.
  apply lines_LF.
Qed.

Lemma single_line_no_break s :
  single_line s = true →
  existsb (N.eqb LF) s = false ∧ existsb (N.eqb CR) s = false.
Proof.
  unfold single_line. rewrite negb_true_iff.
  induction s as [|c s IH]; [easy|].
  cbn [existsb]. unfold is_linebreak at 1.
  rewrite (N.eqb_sym LF c), (N.eqb_sym CR c).
  destruct (c =? LF)%N, (c =? CR)%N; cbn [orb]; try discriminate.
  exact IH.
Qed.

Lemma single_line_app a b :
  single_line (a ++ b) = single_line a && single_line b.
Proof.
  unfold single_line. rewrite existsb_app. now destruct (existsb _ a).
Qed.

Lemma readlines_single l :
  single_line l = true → readlines (l ++ [LF]) = [l ++ [LF]].
Proof.
  intros H. apply single_line_no_break in H as [HLF HCR].
  unfold readlines. rewrite universal_newlines_id.
  - now apply lines_single.
  - rewrite existsb_app, HCR. reflexivity.
Qed.

(** ** The timestamp and the labels *)

Lemma digit_neq c n : (c < 48 ∨ 57 < c)%N → (c =? digit n)%N = false.
Proof. intros H. apply N.eqb_neq. pose proof (digit_range n). lia. Qed.

Lemma strftime_log_head now :
  ∃ c rest, strftime_log now = c :: rest ∧ isspace c = false.
Proof.
  eexists _, _. split; [reflexivity|]. apply isspace_digit.
Qed.

Lemma occurrences_pad2 n : occurrences PIPE (pad2 n) = 0.
Proof.
  unfold occurrences, pad2. cbn [List.filter].
  rewrite !digit_neq by (right; unfold PIPE; lia). reflexivity.
Qed.

Lemma occurrences_pad4 n : occurrences PIPE (pad4 n) = 0.
Proof.
  unfold occurrences, pad4. cbn [List.filter].
  rewrite !digit_neq by (right; unfold PIPE; lia). reflexivity.
Qed.

Lemma strftime_log_no_pipe now : occurrences PIPE (strftime_log now) = 0.
Proof.
  unfold strftime_log.
  rewrite !occurrences_app, !occurrences_pad2, occurrences_pad4.
  reflexivity.
Qed.

Lemma is_linebreak_digit n : is_linebreak (digit n) = false.
Proof.
  unfold is_linebreak. pose proof (digit_range n) as H.
  apply orb_false_iff. split; apply N.eqb_neq; unfold LF, CR; lia.
Qed.

Lemma strftime_log_single_line now : single_line (strftime_log now) = true.
Proof.
  unfold strftime_log, pad4, pad2, single_line.
  rewrite !existsb_app. cbn [existsb]. rewrite !is_linebreak_digit.
  reflexivity.
Qed.

Lemma label_known label :
  label ∈ LABELS →
  occurrences PIPE label = 0 ∧ single_line label = true ∧ label ≠ [].
Proof.
  unfold LABELS. rewrite !elem_of_cons, elem_of_nil.
  intros [->|[->|[->|[]]]]; now vm_compute.
Qed.

(** ** Loading *)

Lemma load_data_present content shown sent :
  load_data (mkWorld (Some content) shown sent) =
    (Ok (DataFrame_records (foldl load_line [] (readlines content))),
     mkWorld (Some content) shown sent).
Proof. reflexivity. Qed.

Lemma load_data_absent shown sent :
  load_data (mkWorld None shown sent) =
    (Ok (DataFrame_columns COLUMNS), mkWorld None shown sent).
Proof. reflexivity. Qed.

(** Loading always returns a table, and changes nothing. *)
Lemma load_data_total w : ∃ df, load_data w = (Ok df, w).
Proof.
  destruct w as [[content|] shown sent]; eexists.
  - apply load_data_present.
  - apply load_data_absent.
Qed.

Lemma loaded_eq w :
  loaded w = match file w with
             | Some content => foldl load_line [] (readlines content)
             | None => []
             end.
Proof. destruct w as [[content|] shown sent]; reflexivity. Qed.

Lemma result_load_data w :
  result load_data w =
    Ok (match file w with
        | Some _ => DataFrame_records (loaded w)
        | None => DataFrame_columns COLUMNS
        end).
Proof. destruct w as [[content|] shown sent]; reflexivity. Qed.

Lemma isspace_PIPE : isspace PIPE = false.
Proof. reflexivity. Qed.

(** A line is kept exactly when it holds the delimiter twice or more;
    stripping it first makes no difference to that. *)
Lemma three_parts_iff line :
  length (split PIPE 2 (strip line)) = 3 ↔ length (split PIPE 2 line) = 3.
Proof.
  rewrite !length_split, (occurrences_strip _ _ isspace_PIPE). reflexivity.
Qed.

Lemma three_parts_occurrences line :
  length (split PIPE 2 line) = 3 ↔ 2 ≤ occurrences PIPE line.
Proof. rewrite length_split. lia. Qed.

Lemma load_line_spec data line :
  load_line data line =
    data ++ (if bool_decide (length (split PIPE 2 line) = 3)
             then [row_of_line line] else []).
Proof.
  unfold load_line, row_of_line.
  pose proof (three_parts_iff line) as H.
  repeat case_bool_decide; try tauto. now rewrite app_nil_r.
Qed.

Lemma foldl_load_line data ls :
  foldl load_line data ls = data ++ foldl load_line [] ls.
Proof.
  revert data. induction ls as [|l ls IH]; intros data.
  - simpl. now rewrite app_nil_r.
  - change (foldl load_line data (l :: ls))
      with (foldl load_line (load_line data l) ls).
    change (foldl load_line [] (l :: ls))
      with (foldl load_line (load_line [] l) ls).
    rewrite IH, (IH (load_line [] l)), !load_line_spec.
    cbn [app]. now rewrite app_assoc.
Qed.

Lemma foldl_load_line_filter ls :
  foldl load_line [] ls =
    row_of_line <$>
      List.filter (λ l, bool_decide (length (split PIPE 2 l) = 3)) ls.
Proof.
  induction ls as [|l ls IH]; [reflexivity|].
  change (foldl load_line [] (l :: ls))
    with (foldl load_line (load_line [] l) ls).
  rewrite foldl_load_line, IH, load_line_spec. cbn [app List.filter].
  now destruct (bool_decide _).
Qed.

(** ** Appending *)

Lemma save_to_file_file now msg label w :
  file (run (save_to_file now msg label) w) =
    Some (default [] (file w)
          ++ strftime_log now ++ u "|" ++ label ++ u "|" ++ msg ++ [LF]).
Proof. reflexivity. Qed.

(** Every append leaves the file ending with a line feed, and clearing
    leaves no file: the invariant of the store. *)
Lemma save_to_file_newline_terminated now msg label w :
  newline_terminated (file (run (save_to_file now msg label) w)) = true.
Proof.
  rewrite save_to_file_file. cbn [newline_terminated].
  rewrite !app_assoc, rev_app_distr. reflexivity.
Qed.

Lemma lstrip_app ts x :
  (∃ c rest, ts = c :: rest ∧ isspace c = false) →
  lstrip (ts ++ x) = ts ++ x.
Proof. intros (c & rest & -> & Hc). now apply lstrip_head. Qed.

Lemma load_line_saved data ts label msg :
  (∃ c rest, ts = c :: rest ∧ isspace c = false) →
  occurrences PIPE ts = 0 → occurrences PIPE label = 0 →
  no_trailing_space msg = true →
  load_line data (ts ++ u "|" ++ label ++ u "|" ++ msg ++ [LF])
  = data ++ [mkRow ts label msg].
Proof.
  intros Hhead Hts Hlabel Hmsg.
  assert (strip (ts ++ u "|" ++ label ++ u "|" ++ msg ++ [LF])
          = ts ++ u "|" ++ label ++ u "|" ++ msg) as Hstrip.
  { unfold strip. rewrite (lstrip_app _ _ Hhead).
    change (u "|") with [PIPE].
    replace (ts ++ [PIPE] ++ label ++ [PIPE] ++ msg ++ [LF])
      with ((ts ++ [PIPE] ++ label ++ [PIPE] ++ msg) ++ [LF])
      by (now rewrite <- !app_assoc).
    rewrite rstrip_snoc_space by reflexivity.
    apply rstrip_id. destruct msg as [|m msg].
    - rewrite app_nil_r.
      replace (ts ++ [PIPE] ++ label ++ [PIPE])
        with ((ts ++ [PIPE] ++ label) ++ [PIPE])
        by (now rewrite <- !app_assoc).
      now apply no_trailing_space_snoc.
    - replace (ts ++ [PIPE] ++ label ++ [PIPE] ++ m :: msg)
        with ((ts ++ [PIPE] ++ label ++ [PIPE]) ++ m :: msg)
        by (now rewrite <- !app_assoc).
      now apply no_trailing_space_app. }
  unfold load_line. rewrite Hstrip, (split_three _ _ _ Hts Hlabel).
  reflexivity.
Qed.

Lemma loaded_save now msg label w :
  occurrences PIPE label = 0 → single_line label = true →
  line_safe msg = true → newline_terminated (file w) = true →
  loaded (run (save_to_file now msg label) w)
  = loaded w ++ [row_of now msg label].
Proof.
  intros Hpipe Hlabel Hmsg Hw.
  apply andb_true_iff in Hmsg as [Hline Hspace].
  rewrite (loaded_eq (run _ w)), save_to_file_file, (loaded_eq w).
  set (ts := strftime_log now).
  assert (readlines (ts ++ u "|" ++ label ++ u "|" ++ msg ++ [LF])
          = [ts ++ u "|" ++ label ++ u "|" ++ msg ++ [LF]]) as Hone.
  { rewrite !app_assoc. apply readlines_single.
    rewrite !single_line_app, Hlabel, Hline.
    unfold ts. now rewrite strftime_log_single_line. }
  assert (load_line [] (ts ++ u "|" ++ label ++ u "|" ++ msg ++ [LF])
          = [row_of now msg label]) as Hrow.
  { apply (load_line_saved []); auto.
    - apply strftime_log_head.
    - apply strftime_log_no_pipe. }
  destruct (file w) as [content|]; cbn [default].
  - rewrite readlines_app by exact Hw.
    rewrite foldl_app, foldl_load_line, Hone.
    change (foldl load_line [] [?l]) with (load_line [] l).
    now rewrite Hrow.
  - cbn [app]. rewrite Hone.
    change (foldl load_line [] [?l]) with (load_line [] l).
    now rewrite Hrow.
Qed.

(** Whatever the text and the label, an append leaves the rows loaded
    before where they were; what it adds comes after them. *)
Lemma loaded_save_prefix now msg label w :
  newline_terminated (file w) = true →
  ∃ extra, loaded (run (save_to_file now msg label) w) = loaded w ++ extra.
Proof.
  intros Hw. rewrite (loaded_eq (run _ w)), save_to_file_file, (loaded_eq w).
  destruct (file w) as [content|]; cbn [default].
  - rewrite readlines_app by exact Hw.
    rewrite foldl_app, foldl_load_line. eexists. reflexivity.
  - eexists. reflexivity.
Qed.

Lemma rows_load_data w : ∃ df, result load_data w = Ok df ∧ rows df = loaded w.
Proof.
  rewrite result_load_data, loaded_eq. eexists. split; [reflexivity|].
  now destruct (file w).
Qed.

Lemma append_all_cons a appends w :
  append_all (a :: appends) w
  = append_all appends (run (save_to_file a.1.1 a.1.2 a.2) w).
Proof. reflexivity. Qed.

Lemma loaded_append_all appends w :
  newline_terminated (file w) = true →
  Forall (λ a, line_safe a.1.2 = true ∧ a.2 ∈ LABELS) appends →
  loaded (append_all appends w)
  = loaded w ++ ((λ a, row_of a.1.1 a.1.2 a.2) <$> appends).
Proof.
  intros Hw Hall. revert w Hw.
  induction Hall as [|a appends [Hmsg Hlabel] _ IH]; intros w Hw.
  - simpl. now rewrite app_nil_r.
  - rewrite append_all_cons, IH
      by apply save_to_file_newline_terminated.
    apply label_known in Hlabel as (Hpipe & Hline & _).
    rewrite loaded_save by assumption.
    rewrite <- app_assoc. reflexivity.
Qed.

(** ** The feed of recent messages *)

Lemma rev_tail n l : rev (tail n l) = take n (rev l).
Proof. unfold tail. now rewrite firstn_rev. Qed.

Lemma recent_df_take df : recent_df df = take 5 (rev (rows df)).
Proof. apply rev_tail. Qed.

(** ** The store: round trip, order, lenient parsing *)

(** C1, as the code has it: for a label among the three known ones and a
    text that holds no line break and does not end with white space (the
    delimiter may occur anywhere in it), appending to a store whose file
    is absent, empty or ends with a line feed and then loading returns
    the rows loaded before followed by exactly the appended
    (timestamp, label, text). *)
Theorem append_load_roundtrip now msg label w :
  label ∈ LABELS → line_safe msg = true →
  newline_terminated (file w) = true →
  result load_data (run (save_to_file now msg label) w)
  = Ok (DataFrame_records (loaded w ++ [row_of now msg label])).
Proof.
  intros Hlabel Hmsg Hw. apply label_known in Hlabel as (Hpipe & Hline & _).
  rewrite result_load_data, save_to_file_file, loaded_save by assumption.
  reflexivity.
Qed.

Lemma append_load_roundtrip_witness :
  result load_data
    (run (save_to_file (mkDatetime 2024 3 7 9 5 0) (u "a|b, c") (u "negative"))
         (store (Some (u "junk" ++ [LF]))))
  = Ok (DataFrame_records
          (loaded (store (Some (u "junk" ++ [LF])))
           ++ [row_of (mkDatetime 2024 3 7 9 5 0) (u "a|b, c") (u "negative")])).
Proof.
  apply (append_load_roundtrip (mkDatetime 2024 3 7 9 5 0) (u "a|b, c")
           (u "negative") (store (Some (u "junk" ++ [LF])))).
  - apply elem_of_cons. right. apply elem_of_cons. left. reflexivity.
  - reflexivity.
  - reflexivity.
Defined.

(** C1 as stated fails: a text that ends with a space comes back without
    it, because the whole line is stripped before it is split. *)
Lemma roundtrip_drops_trailing_space :
  let now := mkDatetime 2024 3 7 9 5 0 in
  let w := run (save_to_file now (u "hi ") (u "positive")) (store None) in
  loaded w = [row_of now (u "hi") (u "positive")]
  ∧ loaded w ≠ [row_of now (u "hi ") (u "positive")].
Proof. split; [reflexivity|]. vm_compute. discriminate. Qed.

(** The same for a text of two lines: only its first line is kept. *)
Example roundtrip_keeps_first_line_only :
  let now := mkDatetime 2024 3 7 9 5 0 in
  loaded (run (save_to_file now (u "a" ++ [LF] ++ u "b") (u "neutral"))
              (store None))
  = [row_of now (u "a") (u "neutral")].
Proof. reflexivity. Qed.

(** C3, as the code has it: on a store whose file is absent, empty or
    ends with a line feed, appends of records with a known label and a
    text that holds no line break and does not end with white space
    come back from a load in the order they were made, after the rows
    that were there, and the feed shows the last five rows newest first,
    all of them when there are five or fewer. *)
Theorem load_order_and_recent (appends : list (datetime * str * str)) w :
  newline_terminated (file w) = true →
  Forall (λ a, line_safe a.1.2 = true ∧ a.2 ∈ LABELS) appends →
  ∃ df,
    result load_data (append_all appends w) = Ok df
    ∧ rows df = loaded w ++ ((λ a, row_of a.1.1 a.1.2 a.2) <$> appends)
    ∧ recent_df df = take 5 (rev (rows df))
    ∧ (length (rows df) ≤ 5 → recent_df df = rev (rows df)).
Proof.
  intros Hw Hall.
  destruct (rows_load_data (append_all appends w)) as (df & Hdf & Hrows).
  exists df. split; [exact Hdf|]. split.
  - rewrite Hrows. now apply loaded_append_all.
  - split; [apply recent_df_take|].
    intros Hlen. rewrite recent_df_take. apply take_ge.
    now rewrite length_rev.
Qed.

Lemma load_order_and_recent_witness :
  let appends :=
    [(mkDatetime 2024 3 7 9 5 0, u "first | one", u "positive");
     (mkDatetime 2024 3 7 9 6 30, u "second", u "neutral")] in
  ∃ df,
    result load_data (append_all appends (store None)) = Ok df
    ∧ rows df = loaded (store None)
                ++ ((λ a, row_of a.1.1 a.1.2 a.2) <$> appends)
    ∧ recent_df df = take 5 (rev (rows df))
    ∧ (length (rows df) ≤ 5 → recent_df df = rev (rows df)).
Proof.
  intros appends. apply (load_order_and_recent appends (store None)).
  - reflexivity.
  - repeat (apply Forall_cons; [split; [reflexivity|repeat constructor]|]).
    apply Forall_nil.
Defined.

(** C3 as stated fails, since it is said of every store content: on a
    file that does not end with a line feed the appended record runs
    into the last line and is not returned; and a text of two lines
    brings back a record that was never appended, which then heads the
    feed. *)
Lemma load_order_fails_outside_line_format :
  let now := mkDatetime 2024 3 7 9 5 0 in
  let w := store (Some (u "2024-03-07 09:00:00|neutral|old")) in
  let w1 := append_all [(now, u "new", u "positive")] w in
  let w2 :=
    append_all [(now, u "x" ++ [LF] ++ u "t|positive|y", u "neutral")]
      (store None) in
  loaded w1
  = [mkRow (u "2024-03-07 09:00:00") (u "neutral")
       (u "old2024-03-07 09:05:00|positive|new")]
  ∧ loaded w1 ≠ loaded w ++ [row_of now (u "new") (u "positive")]
  ∧ loaded w2
    = [row_of now (u "x") (u "neutral"); mkRow (u "t") (u "positive") (u "y")]
  ∧ head (take 5 (rev (loaded w2))) = Some (mkRow (u "t") (u "positive") (u "y")).
Proof.
  repeat split; try reflexivity. vm_compute. discriminate.
Qed.

(** C5: loading keeps, in file order, exactly the lines that split on
    the delimiter (at most twice) into three parts, which are the lines
    holding the delimiter twice or more; any other line, one without a
    delimiter among them, adds nothing, and the load returns normally
    and reports nothing. *)
Theorem load_data_keeps_three_part_lines content shown sent :
  load_data (mkWorld (Some content) shown sent)
  = (Ok (DataFrame_records
           (row_of_line <$>
              List.filter (λ l, bool_decide (length (split PIPE 2 l) = 3))
                (readlines content))),
     mkWorld (Some content) shown sent)
  ∧ (∀ line, length (split PIPE 2 line) = 3 ↔ 2 ≤ occurrences PIPE line)
  ∧ (∀ data line, occurrences PIPE line < 2 → load_line data line = data).
Proof.
  split; [|split].
  - now rewrite load_data_present, foldl_load_line_filter.
  - apply three_parts_occurrences.
  - intros data line Hlt. rewrite load_line_spec.
    case_bool_decide as H; [|now rewrite app_nil_r].
    apply three_parts_occurrences in H. lia.
Qed.

Lemma load_data_keeps_three_part_lines_witness :
  let content :=
    u "2024-03-07 09:05:00|positive|fine" ++ [LF] ++ u "no delimiter here"
    ++ [LF] in
  loaded (store (Some content))
  = [mkRow (u "2024-03-07 09:05:00") (u "positive") (u "fine")]
  ∧ load_line [] (u "no delimiter here" ++ [LF]) = [].
Proof.
  intros content.
  destruct (load_data_keeps_three_part_lines content [] []) as (Hload & _ & Hdrop).
  split.
  - unfold loaded, result, store. rewrite Hload. reflexivity.
  - apply Hdrop. vm_compute. lia.
Defined.

(** ** Clearing and the empty state *)

(** Without the test for existence the second removal would raise. *)
Lemma os_remove_absent shown sent :
  result os_remove (mkWorld None shown sent) = Raise FileNotFoundError.
Proof. reflexivity. Qed.

Lemma clear_history_newline_terminated w :
  newline_terminated (file (run clear_history w)) = true.
Proof. now destruct w as [[content|] shown sent]. Qed.

(** Whatever is appended and however often the store is cleared, the
    file stays absent, empty or ended by a line feed. *)
Lemma store_invariant ops w :
  newline_terminated (file w) = true →
  newline_terminated (file (foldl apply_op w ops)) = true.
Proof.
  revert w. induction ops as [|op ops IH]; intros w Hw; [exact Hw|].
  cbn [foldl]. apply IH. destruct op; cbn [apply_op].
  - apply save_to_file_newline_terminated.
  - apply clear_history_newline_terminated.
Qed.

(** C8: clearing returns normally and leaves no file whether or not
    there was one; a second clearing returns normally too and changes
    nothing; after either, a load finds no row. *)
Theorem clear_history_idempotent content shown sent :
  let w := mkWorld content shown sent in
  let w1 := run clear_history w in
  result clear_history w = Ok tt
  ∧ w1 = mkWorld None shown sent
  ∧ result clear_history w1 = Ok tt
  ∧ run clear_history w1 = w1
  ∧ loaded w1 = [] ∧ loaded (run clear_history w1) = [].
Proof. destruct content; repeat split; reflexivity. Qed.

(** C9: with no file a load returns the table without rows; on that
    table the counts per label and the hourly series are empty, and the
    analytics tab shows its notice, computes nothing else and returns
    normally. *)
Theorem empty_state (to_hour : str → option Z) now clear_all_btn shown sent :
  let w := mkWorld None shown sent in
  let df := DataFrame_columns COLUMNS in
  load_data w = (Ok df, w)
  ∧ rows df = []
  ∧ value_counts (sentiment <$> rows df) = ∅
  ∧ hourly_series to_hour (rows df) = Some []
  ∧ tab2 to_hour now clear_all_btn w
    = (Ok tt,
       mkWorld None
         (shown ++ [StInfo (u "No data available. Analyze some messages first!")])
         sent).
Proof. repeat split; reflexivity. Qed.

(** ** The analyze button *)

Lemma show_recent_frame r w :
  file (run (show_recent r) w) = file w
  ∧ posted (run (show_recent r) w) = posted w.
Proof.
  unfold run, show_recent, emojis_of, mbind, M_bind, raise, mret, M_ret, st.
  now destruct (SENTIMENT_EMOJIS !! sentiment r).
Qed.

Lemma for_each_show_recent_frame l w :
  file (run (for_each l show_recent) w) = file w
  ∧ posted (run (for_each l show_recent) w) = posted w.
Proof.
  revert w. induction l as [|r l IH]; intros w; [easy|].
  pose proof (show_recent_frame r w) as [Hf Hp].
  unfold run in *. cbn [for_each]. unfold mbind, M_bind.
  destruct (show_recent r w) as [[[]|e] w1]; cbn [snd] in *.
  - destruct (IH w1) as [Hf1 Hp1]. split; congruence.
  - easy.
Qed.

(** C10: with an empty message the analyze handler does nothing at all,
    pressed or not: no request is sent and the file, like the rest of
    the world, is as before; and the whole first tab, feed included,
    leaves the file and the requests sent as they were. *)
Theorem on_analyze_empty_message api now analyze_btn w :
  on_analyze api now analyze_btn [] w = (Ok tt, w)
  ∧ file (run (tab1 api now [] analyze_btn false) w) = file w
  ∧ posted (run (tab1 api now [] analyze_btn false) w) = posted w.
Proof.
  assert (on_analyze api now analyze_btn [] w = (Ok tt, w)) as Hnone
    by now destruct analyze_btn.
  split; [exact Hnone|].
  destruct (load_data_total w) as [df Hdf].
  assert (tab1 api now [] analyze_btn false w
          = (if negb (empty_df df)
             then for_each (recent_df df) show_recent else mret tt) w)
    as Htab.
  { unfold tab1, mbind, M_bind. unfold mret at 1, M_ret at 1.
    cbv beta iota. rewrite Hnone, Hdf. reflexivity. }
  unfold run. rewrite Htab.
  destruct (negb (empty_df df)); [|easy].
  apply for_each_show_recent_frame.
Qed.

Lemma analyze_sentiment_failure api msg w report :
  failure (api msg) report →
  analyze_sentiment api msg w
  = (Ok PyNone,
     mkWorld (file w) (ui w ++ [StError report]) (posted w ++ [msg])).
Proof.
  intros Hfail.
  unfold analyze_sentiment, requests_post, mbind, M_bind.
  inversion Hfail as [e He|code body Hcode He|e He]; subst report;
    try case_bool_decide; try contradiction; reflexivity.
Qed.

(** C4: when the call raises, answers with a status other than 200, or
    answers 200 with a body that cannot be read, the classifier client
    reports the one error the spec names for the case and returns
    [None]; the analyze handler then returns normally and the file is
    what it was. *)
Theorem analyze_failure_reports_and_writes_nothing
    api now msg analyze_btn w report :
  failure (api msg) report →
  analyze_sentiment api msg w
  = (Ok PyNone,
     mkWorld (file w) (ui w ++ [StError report]) (posted w ++ [msg]))
  ∧ result (on_analyze api now analyze_btn msg) w = Ok tt
  ∧ file (run (on_analyze api now analyze_btn msg) w) = file w.
Proof.
  intros Hfail.
  pose proof (analyze_sentiment_failure api msg w report Hfail) as Hcall.
  split; [exact Hcall|].
  unfold result, run, on_analyze.
  destruct (analyze_btn && truthy_str msg); [|easy].
  unfold mbind, M_bind. rewrite Hcall. easy.
Qed.

Lemma analyze_failure_reports_and_writes_nothing_witness :
  let api := λ _ : str, Response 503 (Result (PyStr (u "positive"))) in
  let now := mkDatetime 2024 3 7 9 5 0 in
  let w := store (Some (u "2024-03-07 09:00:00|neutral|ok" ++ [LF])) in
  analyze_sentiment api (u "hello") w
  = (Ok PyNone,
     mkWorld (file w) (ui w ++ [StError (u "API Error: 503")])
       (posted w ++ [u "hello"]))
  ∧ result (on_analyze api now true (u "hello")) w = Ok tt
  ∧ file (run (on_analyze api now true (u "hello")) w) = file w.
Proof.
  intros api now w.
  apply (analyze_failure_reports_and_writes_nothing api now (u "hello") true w
           (u "API Error: 503")).
  apply (failure_status 503 (Result (PyStr (u "positive")))). discriminate.
Defined.

(** ** The CSV export *)

Lemma result_export_data w :
  result export_data w
  = match result load_data w with
    | Ok df => Ok (to_csv df)
    | Raise e => Raise e
    end.
Proof.
  unfold result, export_data, mbind, M_bind.
  now destruct (load_data w) as [[df|e] w1].
Qed.

(** C2, as the code has it: when there is no file, or the file holds at
    least one well-formed line, the export is the header line
    [timestamp,sentiment,message] followed by one line per stored
    record in the order of the file, the oldest first. *)
Theorem export_data_file_order w :
  file w = None ∨ loaded w ≠ [] →
  result export_data w
  = Ok (u "timestamp,sentiment,message" ++ [LF]
        ++ mjoin ((λ r, csv_line (cells r)) <$> loaded w)).
Proof.
  intros Hw. rewrite result_export_data, result_load_data.
  destruct (file w) as [content|] eqn:Hfile.
  - destruct Hw as [|Hrows]; [discriminate|].
    unfold DataFrame_records, to_csv. cbn [columns rows].
    destruct (loaded w); [contradiction|]. reflexivity.
  - rewrite loaded_eq, Hfile. reflexivity.
Qed.

Lemma export_data_file_order_witness :
  let w := store (Some (u "2024-03-07 09:05:00|positive|good, really"
                        ++ [LF])) in
  result export_data w
  = Ok (u "timestamp,sentiment,message" ++ [LF]
        ++ mjoin ((λ r, csv_line (cells r)) <$> loaded w)).
Proof.
  intros w. apply (export_data_file_order w). right. vm_compute. discriminate.
Defined.

(** C2 as stated fails: the export lists the records oldest first; the
    table with the newest record first renders differently. *)
Lemma export_data_not_newest_first :
  let w :=
    append_all
      [(mkDatetime 2024 3 7 9 5 0, u "old", u "positive");
       (mkDatetime 2024 3 7 9 6 30, u "new", u "neutral")] (store None) in
  result export_data w
  = Ok (u "timestamp,sentiment,message" ++ [LF]
        ++ u "2024-03-07 09:05:00,positive,old" ++ [LF]
        ++ u "2024-03-07 09:06:30,neutral,new" ++ [LF])
  ∧ result export_data w ≠ Ok (to_csv (mkDF COLUMNS (rev (loaded w)))).
Proof. split; [reflexivity|]. vm_compute. discriminate. Qed.

(** ** Counts per label *)

Lemma value_counts_foldl (xs : list str) (m : gmap str nat) (x : str) :
  foldl (λ m x, <[x := S (default 0 (m !! x))]> m) m xs !! x
  = match length (List.filter (λ y, bool_decide (y = x)) xs) with
    | 0 => m !! x
    | S n => Some (default 0 (m !! x) + S n)
    end.
Proof.
  revert m. induction xs as [|y xs IH]; intros m; [reflexivity|].
  cbn [foldl List.filter]. rewrite IH.
  case_bool_decide as Hy; cbn [length].
  - subst y. rewrite lookup_insert_eq. cbn [default]. unfold id.
    generalize (default 0 (m !! x)). intros d.
    destruct (length _); f_equal; lia.
  - now rewrite lookup_insert_ne.
Qed.

Lemma length_where_sentiment label (l : list Row) :
  length (List.filter (λ y, bool_decide (y = label)) (sentiment <$> l))
  = length (where_sentiment label l).
Proof.
  unfold where_sentiment. induction l as [|r l IH]; [reflexivity|].
  cbn [fmap list_fmap List.filter]. fold (sentiment <$> l).
  destruct (bool_decide (sentiment r = label)); cbn [length]; now rewrite IH.
Qed.

Lemma value_counts_lookup (l : list Row) (label : str) :
  value_counts (sentiment <$> l) !! label
  = match length (where_sentiment label l) with
    | 0 => None
    | S n => Some (S n)
    end.
Proof.
  unfold value_counts. rewrite value_counts_foldl, length_where_sentiment.
  rewrite lookup_empty. reflexivity.
Qed.

Lemma where_sentiment_none label (l : list Row) :
  (∀ r, r ∈ l → sentiment r ≠ label) → where_sentiment label l = [].
Proof.
  unfold where_sentiment. induction l as [|r l IH]; intros H; [reflexivity|].
  cbn [List.filter]. rewrite bool_decide_eq_false_2.
  - apply IH. intros r' Hr'. apply H. now right.
  - apply H. now left.
Qed.

(** C6: the counts per label give each label the number of rows that
    carry it and have no entry for a label no row carries; so a table
    with three positive, one negative and two neutral rows and none
    other is counted as exactly that. *)
Theorem value_counts_exact (l : list Row) :
  (∀ label,
     value_counts (sentiment <$> l) !! label
     = match length (where_sentiment label l) with
       | 0 => None
       | S n => Some (S n)
       end)
  ∧ (length (where_sentiment (u "positive") l) = 3 →
     length (where_sentiment (u "negative") l) = 1 →
     length (where_sentiment (u "neutral") l) = 2 →
     (∀ r, r ∈ l → sentiment r ∈ LABELS) →
     value_counts (sentiment <$> l)
     = <[u "positive" := 3]> (<[u "negative" := 1]> (<[u "neutral" := 2]> ∅))).
Proof.
  split; [apply value_counts_lookup|].
  intros Hpos Hneg Hneu Hknown. apply map_eq. intros k.
  rewrite value_counts_lookup.
  destruct (decide (k = u "positive")) as [->|Hk1].
  { now rewrite Hpos, lookup_insert_eq. }
  rewrite lookup_insert_ne by congruence.
  destruct (decide (k = u "negative")) as [->|Hk2].
  { now rewrite Hneg, lookup_insert_eq. }
  rewrite lookup_insert_ne by congruence.
  destruct (decide (k = u "neutral")) as [->|Hk3].
  { now rewrite Hneu, lookup_insert_eq. }
  rewrite lookup_insert_ne by congruence.
  rewrite lookup_empty, where_sentiment_none; [reflexivity|].
  intros r Hr Heq. apply Hknown in Hr. rewrite Heq in Hr.
  unfold LABELS in Hr. rewrite !elem_of_cons, elem_of_nil in Hr.
  tauto.
Qed.

Lemma value_counts_exact_witness :
  let l :=
    [mkRow (u "2024-03-07 09:00:00") (u "positive") (u "a");
     mkRow (u "2024-03-07 09:01:00") (u "neutral") (u "b");
     mkRow (u "2024-03-07 09:02:00") (u "positive") (u "c");
     mkRow (u "2024-03-07 10:00:00") (u "negative") (u "d");
     mkRow (u "2024-03-07 10:30:00") (u "neutral") (u "e");
     mkRow (u "2024-03-07 12:00:00") (u "positive") (u "f")] in
  value_counts (sentiment <$> l)
  = <[u "positive" := 3]> (<[u "negative" := 1]> (<[u "neutral" := 2]> ∅)).
Proof.
  intros l. apply (proj2 (value_counts_exact l)); try reflexivity.
  intros r Hr. unfold l in Hr.
  rewrite !elem_of_cons, elem_of_nil in Hr.
  destruct Hr as [->|[->|[->|[->|[->|[->|[]]]]]]]; cbn [sentiment];
    repeat constructor.
Defined.

(** ** The emoji lookup *)

Lemma SENTIMENT_EMOJIS_unknown label :
  label ∉ LABELS → SENTIMENT_EMOJIS !! label = None.
Proof.
  intros H. unfold SENTIMENT_EMOJIS.
  rewrite !lookup_insert_ne, lookup_empty; [reflexivity|..];
    intros <-; apply H; repeat constructor.
Qed.

(** C7, as the code has it: the lookup returns the three emojis of a
    label when the label is one of the three known ones, and raises
    [KeyError] with the label for any other: the dict is indexed
    directly, at both places, and nothing catches the error. *)
Theorem emojis_of_known_only label w :
  (label ∈ LABELS →
   ∃ found, emojis_of label w = (Ok found, w) ∧ length found = 3)
  ∧ (label ∉ LABELS → emojis_of label w = (Raise (KeyError label), w)).
Proof.
  split.
  - unfold LABELS. rewrite !elem_of_cons, elem_of_nil.
    intros [->|[->|[->|[]]]]; vm_compute; eexists; split; reflexivity.
  - intros H. unfold emojis_of.
    now rewrite (SENTIMENT_EMOJIS_unknown _ H).
Qed.

Lemma emojis_of_known_only_witness :
  (∃ found,
     emojis_of (u "neutral") (store None) = (Ok found, store None)
     ∧ length found = 3)
  ∧ emojis_of (u "mixed") (store None)
    = (Raise (KeyError (u "mixed")), store None).
Proof.
  destruct (emojis_of_known_only (u "neutral") (store None)) as [Hknown _].
  destruct (emojis_of_known_only (u "mixed") (store None)) as [_ Hunknown].
  split.
  - apply Hknown. repeat constructor.
  - apply Hunknown. unfold LABELS. rewrite !elem_of_cons, elem_of_nil.
    intros [H|[H|[H|[]]]]; vm_compute in H; discriminate.
Defined.

(** C7 as stated fails: a label outside the three makes the lookup
    raise, in the handler right after the record was written and in the
    feed on every later run. *)
Lemma emoji_lookup_raises_on_unknown_label :
  let api := λ _ : str, Response 200 (Result (PyStr (u "mixed"))) in
  let now := mkDatetime 2024 3 7 9 5 0 in
  result (emojis_of (u "mixed")) (store None) = Raise (KeyError (u "mixed"))
  ∧ on_analyze api now true (u "hm") (store None)
    = (Raise (KeyError (u "mixed")),
       mkWorld (Some (u "2024-03-07 09:05:00|mixed|hm" ++ [LF])) [] [u "hm"])
  ∧ result (tab1 api now [] false false)
      (store (Some (u "2024-03-07 09:05:00|mixed|hm" ++ [LF])))
    = Raise (KeyError (u "mixed")).
Proof. repeat split; vm_compute; reflexivity. Qed.

(** * Further properties of the script *)

(** ** The classifier client and the analyze handler *)

Lemma analyze_sentiment_ok api msg w v :
  api msg = Response 200 (Result v) →
  analyze_sentiment api msg w
  = (Ok v, mkWorld (file w) (ui w) (posted w ++ [msg])).
Proof.
  intros Hapi. unfold analyze_sentiment, requests_post, mbind, M_bind.
  rewrite Hapi. reflexivity.
Qed.

Lemma SENTIMENT_EMOJIS_known label :
  label ∈ LABELS →
  ∃ found, SENTIMENT_EMOJIS !! label = Some found ∧ length found = 3.
Proof.
  unfold LABELS. rewrite !elem_of_cons, elem_of_nil.
  intros [->|[->|[->|[]]]]; vm_compute; eexists; split; reflexivity.
Qed.

Lemma truthy_str_nonempty s : s ≠ [] → truthy_str s = true.
Proof. now destruct s. Qed.

(** X1: the classifier client never raises and never touches the file;
    it sends exactly one request, carrying the message, whatever the
    outcome; it reports at most one error; and an answer other than
    [None] comes only from a 200 response, with nothing reported. *)
Theorem analyze_sentiment_one_request api msg w :
  ∃ v evs,
    analyze_sentiment api msg w
    = (Ok v, mkWorld (file w) (ui w ++ evs) (posted w ++ [msg]))
    ∧ (evs = [] ∨ ∃ text, evs = [StError text])
    ∧ (v ≠ PyNone → evs = [] ∧ api msg = Response 200 (Result v)).
Proof.
  unfold analyze_sentiment, requests_post, mbind, M_bind.
  destruct (api msg) as [e|code [e|v]]; try case_bool_decide; subst.
  - exists PyNone, [StError (u "Error: " ++ e)].
    split; [reflexivity|]. split; [right; eauto|easy].
  - exists PyNone, [StError (u "Error: " ++ e)].
    split; [reflexivity|]. split; [right; eauto|easy].
  - exists PyNone, [StError (u "API Error: " ++ str_of_int code)].
    split; [reflexivity|]. split; [right; eauto|easy].
  - exists v, []. rewrite app_nil_r.
    split; [reflexivity|]. split; [now left|easy].
  - exists PyNone, [StError (u "API Error: " ++ str_of_int code)].
    split; [reflexivity|]. split; [right; eauto|easy].
Qed.

(** X2: when the service answers 200 with one of the three labels for a
    non-empty message, the handler sends one request, appends exactly
    one line [timestamp|label|message] to the file, and shows two
    things: the label in capitals with its emojis, as a success for
    positive, an error for negative and an info otherwise, and then the
    message. *)
Theorem on_analyze_success api now msg label w :
  api msg = Response 200 (Result (PyStr label)) →
  msg ≠ [] → label ∈ LABELS →
  ∃ found,
    SENTIMENT_EMOJIS !! label = Some found
    ∧ let text := u "**Sentiment: " ++ upper label ++ u "** "
                  ++ join (u " ") found in
      on_analyze api now true msg w
      = (Ok tt,
         mkWorld
           (Some (default [] (file w)
                  ++ strftime_log now ++ u "|" ++ label ++ u "|" ++ msg ++ [LF]))
           (ui w ++ [if bool_decide (label = u "positive") then StSuccess text
                     else if bool_decide (label = u "negative")
                          then StError text else StInfo text;
                     StWrite (u "**Message:** " ++ msg)])
           (posted w ++ [msg])).
Proof.
  intros Hapi Hmsg Hlabel.
  destruct (SENTIMENT_EMOJIS_known label Hlabel) as (found & Hfound & _).
  exists found. split; [exact Hfound|]. intros text.
  assert (label ≠ []) as Hne by (apply label_known in Hlabel; tauto).
  unfold on_analyze. rewrite (truthy_str_nonempty _ Hmsg). cbn [andb].
  unfold mbind, M_bind. rewrite (analyze_sentiment_ok _ _ _ _ Hapi).
  rewrite (truthy_str_nonempty _ Hne).
  unfold save_to_file, open_append_write, emojis_of. cbn [file ui posted].
  rewrite Hfound. fold text.
  destruct (bool_decide (label = u "positive"));
    [|destruct (bool_decide (label = u "negative"))];
    unfold st, mret, M_ret; cbv beta iota; cbn [file ui posted];
    now rewrite <- app_assoc.
Qed.

Lemma on_analyze_success_witness :
  let api := λ _ : str, Response 200 (Result (PyStr (u "negative"))) in
  let now := mkDatetime 2024 3 7 9 5 0 in
  ∃ found,
    SENTIMENT_EMOJIS !! u "negative" = Some found
    ∧ let text := u "**Sentiment: " ++ upper (u "negative") ++ u "** "
                  ++ join (u " ") found in
      on_analyze api now true (u "bad day") (store None)
      = (Ok tt,
         mkWorld
           (Some (default [] (file (store None))
                  ++ strftime_log now ++ u "|" ++ u "negative" ++ u "|"
                  ++ u "bad day" ++ [LF]))
           (ui (store None)
            ++ [if bool_decide (u "negative" = u "positive")
                then StSuccess text
                else if bool_decide (u "negative" = u "negative")
                     then StError text else StInfo text;
                StWrite (u "**Message:** " ++ u "bad day")])
           (posted (store None) ++ [u "bad day"])).
Proof.
  intros api now.
  apply (on_analyze_success api now (u "bad day") (u "negative") (store None)).
  - reflexivity.
  - discriminate.
  - repeat constructor.
Defined.

(** X3: when the service answers 200 with [null] or with the empty
    string, the handler sends its request and then does nothing: no
    line is written and nothing, not even an error, is shown. *)
Theorem on_analyze_silent_on_empty_answer api now msg v w :
  api msg = Response 200 (Result v) →
  v = PyNone ∨ v = PyStr [] → msg ≠ [] →
  on_analyze api now true msg w
  = (Ok tt, mkWorld (file w) (ui w) (posted w ++ [msg])).
Proof.
  intros Hapi Hv Hmsg.
  unfold on_analyze. rewrite (truthy_str_nonempty _ Hmsg). cbn [andb].
  unfold mbind, M_bind. rewrite (analyze_sentiment_ok _ _ _ _ Hapi).
  now destruct Hv as [->| ->].
Qed.

Lemma on_analyze_silent_on_empty_answer_witness :
  on_analyze (λ _, Response 200 (Result (PyStr []))) (mkDatetime 2024 3 7 9 5 0)
    true (u "hello") (store None)
  = (Ok tt, mkWorld (file (store None)) (ui (store None))
              (posted (store None) ++ [u "hello"])).
Proof.
  apply (on_analyze_silent_on_empty_answer
           (λ _, Response 200 (Result (PyStr []))) (mkDatetime 2024 3 7 9 5 0)
           (u "hello") (PyStr []) (store None)).
  - reflexivity.
  - right. reflexivity.
  - discriminate.
Defined.

(** X4: when the service answers 200 with a non-empty label outside the
    three, and UTF-8 can encode the message and the label (so that the
    write goes through), the handler raises [KeyError] for the label,
    but only after the line was appended: the record is in the file
    although nothing was shown. *)
Theorem on_analyze_unknown_label_is_stored api now msg label w :
  api msg = Response 200 (Result (PyStr label)) →
  encodable msg = true → encodable label = true →
  msg ≠ [] → label ≠ [] → label ∉ LABELS →
  on_analyze api now true msg w
  = (Raise (KeyError label),
     mkWorld
       (Some (default [] (file w)
              ++ strftime_log now ++ u "|" ++ label ++ u "|" ++ msg ++ [LF]))
       (ui w) (posted w ++ [msg])).
Proof.
  intros Hapi _ _ Hmsg Hne Hlabel.
  unfold on_analyze. rewrite (truthy_str_nonempty _ Hmsg). cbn [andb].
  unfold mbind, M_bind. rewrite (analyze_sentiment_ok _ _ _ _ Hapi).
  rewrite (truthy_str_nonempty _ Hne).
  unfold save_to_file, open_append_write, emojis_of. cbn [file ui posted].
  now rewrite (SENTIMENT_EMOJIS_unknown _ Hlabel).
Qed.

Lemma on_analyze_unknown_label_is_stored_witness :
  let api := λ _ : str, Response 200 (Result (PyStr (u "mixed"))) in
  let now := mkDatetime 2024 3 7 9 5 0 in
  on_analyze api now true (u "hm") (store None)
  = (Raise (KeyError (u "mixed")),
     mkWorld
       (Some (default [] (file (store None))
              ++ strftime_log now ++ u "|" ++ u "mixed" ++ u "|" ++ u "hm"
              ++ [LF]))
       (ui (store None)) (posted (store None) ++ [u "hm"])).
Proof.
  intros api now.
  apply (on_analyze_unknown_label_is_stored api now (u "hm") (u "mixed")
           (store None)).
  - reflexivity.
  - reflexivity.
  - reflexivity.
  - discriminate.
  - discriminate.
  - unfold LABELS. rewrite !elem_of_cons, elem_of_nil.
    intros [H|[H|[H|[]]]]; vm_compute in H; discriminate.
Defined.

(** X5: pressing the clear button in the first tab removes the file (if
    there is one), confirms it, and restarts the script at once: in that
    run nothing is analyzed and no request is sent, even when the
    analyze button was pressed with a message. *)
Theorem tab1_clear_takes_precedence api now msg analyze_btn content shown sent :
  tab1 api now msg analyze_btn true (mkWorld content shown sent)
  = (Raise RerunException,
     mkWorld None (shown ++ [StSuccess (u "History cleared!")]) sent).
Proof. destruct content; reflexivity. Qed.

(** ** The feed of the first tab *)

Lemma loaded_file w1 w2 : file w1 = file w2 → loaded w1 = loaded w2.
Proof. intros H. now rewrite !loaded_eq, H. Qed.

Lemma on_analyze_known_label_file api now msg label w :
  api msg = Response 200 (Result (PyStr label)) →
  msg ≠ [] → label ∈ LABELS →
  file (run (on_analyze api now true msg) w)
  = file (run (save_to_file now msg label) w).
Proof.
  intros Hapi Hmsg Hlabel.
  destruct (SENTIMENT_EMOJIS_known label Hlabel) as (found & Hfound & _).
  assert (label ≠ []) as Hne by (apply label_known in Hlabel; tauto).
  unfold run, on_analyze. rewrite (truthy_str_nonempty _ Hmsg). cbn [andb].
  unfold mbind, M_bind. rewrite (analyze_sentiment_ok _ _ _ _ Hapi).
  rewrite (truthy_str_nonempty _ Hne).
  unfold save_to_file, open_append_write, emojis_of. cbn [file ui posted].
  rewrite Hfound.
  destruct (bool_decide (label = u "positive"));
    [|destruct (bool_decide (label = u "negative"))]; reflexivity.
Qed.

(** X6: after a successful analysis of a one-line message without white
    space at its end, the next load returns the earlier rows followed by
    the new record, and the new record is the first entry of the feed of
    recent messages. *)
Theorem analyzed_record_heads_feed api now msg label w :
  api msg = Response 200 (Result (PyStr label)) →
  msg ≠ [] → label ∈ LABELS → line_safe msg = true →
  newline_terminated (file w) = true →
  ∃ df,
    result load_data (run (on_analyze api now true msg) w) = Ok df
    ∧ rows df = loaded w ++ [row_of now msg label]
    ∧ head (recent_df df) = Some (row_of now msg label).
Proof.
  intros Hapi Hmsg Hlabel Hsafe Hw.
  destruct (rows_load_data (run (on_analyze api now true msg) w))
    as (df & Hdf & Hrows).
  assert (rows df = loaded w ++ [row_of now msg label]) as Heq.
  { rewrite Hrows.
    rewrite (loaded_file _ (run (save_to_file now msg label) w))
      by now apply on_analyze_known_label_file.
    apply label_known in Hlabel as (Hpipe & Hline & _).
    now apply loaded_save. }
  exists df. split; [exact Hdf|]. split; [exact Heq|].
  rewrite recent_df_take, Heq, rev_app_distr. reflexivity.
Qed.

Lemma analyzed_record_heads_feed_witness :
  let api := λ _ : str, Response 200 (Result (PyStr (u "positive"))) in
  let now := mkDatetime 2024 3 7 9 5 0 in
  let w := store (Some (u "2024-03-07 09:00:00|neutral|ok" ++ [LF])) in
  ∃ df,
    result load_data (run (on_analyze api now true (u "so | good")) w) = Ok df
    ∧ rows df = loaded w ++ [row_of now (u "so | good") (u "positive")]
    ∧ head (recent_df df) = Some (row_of now (u "so | good") (u "positive")).
Proof.
  intros api now w.
  apply (analyzed_record_heads_feed api now (u "so | good") (u "positive") w).
  - reflexivity.
  - discriminate.
  - repeat constructor.
  - reflexivity.
  - reflexivity.
Defined.

Lemma show_recent_known r w :
  sentiment r ∈ LABELS →
  ∃ e1 e2,
    show_recent r w
    = (Ok tt, mkWorld (file w) (ui w ++ [StWrite e1; StWrite e2; StDivider])
                (posted w)).
Proof.
  intros Hr. destruct (SENTIMENT_EMOJIS_known _ Hr) as (found & Hfound & _).
  unfold show_recent, emojis_of, mbind, M_bind. rewrite Hfound.
  unfold st, mret, M_ret. cbv beta iota. cbn [file ui posted].
  eexists _, _. now rewrite <- !app_assoc.
Qed.

Lemma show_recent_unknown r w :
  sentiment r ∉ LABELS →
  show_recent r w = (Raise (KeyError (sentiment r)), w).
Proof.
  intros Hr. unfold show_recent, emojis_of, mbind, M_bind.
  now rewrite (SENTIMENT_EMOJIS_unknown _ Hr).
Qed.

Lemma for_each_show_recent_known l w :
  Forall (λ r, sentiment r ∈ LABELS) l →
  ∃ evs,
    for_each l show_recent w
    = (Ok tt, mkWorld (file w) (ui w ++ evs) (posted w))
    ∧ length evs = 3 * length l.
Proof.
  intros Hall. revert w.
  induction Hall as [|r l Hr _ IH]; intros w.
  - exists []. rewrite app_nil_r. now destruct w.
  - destruct (show_recent_known r w Hr) as (e1 & e2 & Hshow).
    cbn [for_each]. unfold mbind, M_bind. rewrite Hshow.
    destruct (IH (mkWorld (file w)
                    (ui w ++ [StWrite e1; StWrite e2; StDivider]) (posted w)))
      as (evs & Hrest & Hlen).
    exists ([StWrite e1; StWrite e2; StDivider] ++ evs).
    rewrite Hrest. cbn [file ui posted]. rewrite <- app_assoc.
    split; [reflexivity|]. rewrite length_app, Hlen. cbn [length]. lia.
Qed.

Lemma for_each_show_recent_unknown l1 r l2 w :
  Forall (λ r, sentiment r ∈ LABELS) l1 → sentiment r ∉ LABELS →
  ∃ evs,
    for_each (l1 ++ r :: l2) show_recent w
    = (Raise (KeyError (sentiment r)),
       mkWorld (file w) (ui w ++ evs) (posted w))
    ∧ length evs = 3 * length l1.
Proof.
  intros Hall Hr. revert w.
  induction Hall as [|r1 l1 Hr1 _ IH]; intros w.
  - exists []. rewrite app_nil_r. cbn [app for_each].
    unfold mbind, M_bind. rewrite (show_recent_unknown _ _ Hr).
    now destruct w.
  - destruct (show_recent_known r1 w Hr1) as (e1 & e2 & Hshow).
    cbn [app for_each]. unfold mbind, M_bind. rewrite Hshow.
    destruct (IH (mkWorld (file w)
                    (ui w ++ [StWrite e1; StWrite e2; StDivider]) (posted w)))
      as (evs & Hrest & Hlen).
    exists ([StWrite e1; StWrite e2; StDivider] ++ evs).
    unfold mbind, M_bind in Hrest. rewrite Hrest.
    cbn [file ui posted]. rewrite <- app_assoc.
    split; [reflexivity|]. rewrite length_app, Hlen. cbn [length]. lia.
Qed.

(** With no button pressed the first tab is its feed. *)
Lemma tab1_idle api now msg w :
  tab1 api now msg false false w
  = for_each (take 5 (rev (loaded w))) show_recent w.
Proof.
  destruct w as [[content|] shown sent]; [|reflexivity].
  unfold tab1, on_analyze, mbind, M_bind. cbn [andb].
  unfold mret at 1 2, M_ret at 1 2. cbv beta iota.
  rewrite load_data_present, loaded_eq. cbn [file].
  rewrite <- rev_tail.
  unfold empty_df, DataFrame_records, recent_df. cbn [columns rows].
  destruct (foldl load_line [] (readlines content)); reflexivity.
Qed.

(** X7: with no button pressed, when the last five records (or all of
    them, if fewer) carry known labels, the first tab returns normally,
    leaves the file and the requests alone, and shows three things per
    record of the feed. *)
Theorem tab1_feed_known api now msg w :
  Forall (λ r, sentiment r ∈ LABELS) (take 5 (rev (loaded w))) →
  ∃ evs,
    tab1 api now msg false false w
    = (Ok tt, mkWorld (file w) (ui w ++ evs) (posted w))
    ∧ length evs = 3 * min 5 (length (loaded w)).
Proof.
  intros Hall. rewrite tab1_idle.
  destruct (for_each_show_recent_known _ w Hall) as (evs & Hrun & Hlen).
  exists evs. split; [exact Hrun|].
  rewrite Hlen, length_take, length_rev. reflexivity.
Qed.

Lemma tab1_feed_known_witness :
  let w := store (Some (u "2024-03-07 09:00:00|neutral|ok" ++ [LF]
                        ++ u "2024-03-07 09:05:00|positive|fine" ++ [LF])) in
  ∃ evs,
    tab1 (λ _, Transport []) (mkDatetime 2024 3 7 9 6 0) [] false false w
    = (Ok tt, mkWorld (file w) (ui w ++ evs) (posted w))
    ∧ length evs = 3 * min 5 (length (loaded w)).
Proof.
  intros w.
  apply (tab1_feed_known (λ _, Transport []) (mkDatetime 2024 3 7 9 6 0) [] w).
  vm_compute. repeat constructor.
Defined.

(** X8: with no button pressed, when the newest record of the feed that
    carries an unknown label has only records with known labels before
    it, the first tab shows those (three things each) and then raises
    [KeyError] for that label; the file and the requests stay as they
    were. *)
Theorem tab1_feed_unknown api now msg w newer r older :
  take 5 (rev (loaded w)) = newer ++ r :: older →
  Forall (λ r, sentiment r ∈ LABELS) newer → sentiment r ∉ LABELS →
  ∃ evs,
    tab1 api now msg false false w
    = (Raise (KeyError (sentiment r)),
       mkWorld (file w) (ui w ++ evs) (posted w))
    ∧ length evs = 3 * length newer.
Proof.
  intros Hfeed Hall Hr. rewrite tab1_idle, Hfeed.
  now apply for_each_show_recent_unknown.
Qed.

Lemma tab1_feed_unknown_witness :
  let w := store (Some (u "2024-03-07 09:00:00|mixed|hm" ++ [LF]
                        ++ u "2024-03-07 09:05:00|positive|fine" ++ [LF])) in
  ∃ evs,
    tab1 (λ _, Transport []) (mkDatetime 2024 3 7 9 6 0) [] false false w
    = (Raise (KeyError (u "mixed")),
       mkWorld (file w) (ui w ++ evs) (posted w))
    ∧ length evs = 3 * 1.
Proof.
  intros w.
  apply (tab1_feed_unknown (λ _, Transport []) (mkDatetime 2024 3 7 9 6 0) [] w
           [mkRow (u "2024-03-07 09:05:00") (u "positive") (u "fine")]
           (mkRow (u "2024-03-07 09:00:00") (u "mixed") (u "hm")) []).
  - reflexivity.
  - repeat constructor.
  - cbn [sentiment]. unfold LABELS. rewrite !elem_of_cons, elem_of_nil.
    intros [H|[H|[H|[]]]]; vm_compute in H; discriminate.
Defined.

(** ** The metrics and the counts of the second tab *)

Lemma length_where_cons label r (l : list Row) :
  length (where_sentiment label (r :: l))
  = (if bool_decide (sentiment r = label) then 1 else 0)
    + length (where_sentiment label l).
Proof.
  unfold where_sentiment. cbn [List.filter].
  now destruct (bool_decide (sentiment r = label)).
Qed.

Lemma row_class (s : str) :
  let k := (if bool_decide (s = u "positive") then 1 else 0)
           + (if bool_decide (s = u "negative") then 1 else 0)
           + (if bool_decide (s = u "neutral") then 1 else 0) in
  k ≤ 1 ∧ (k = 1 ↔ s ∈ LABELS).
Proof.
  cbv zeta. unfold LABELS.
  assert (s ∈ [u "positive"; u "negative"; u "neutral"]
          ↔ s = u "positive" ∨ s = u "negative" ∨ s = u "neutral") as ->.
  { rewrite !elem_of_cons, elem_of_nil. tauto. }
  repeat case_bool_decide;
    try (exfalso;
         match goal with
         | H1 : s = u ?a, H2 : s = u ?b |- _ =>
             rewrite H1 in H2; vm_compute in H2; discriminate
         end);
    (split; [lia|]); split; intros; first [lia | tauto].
Qed.

Lemma partition_arith (k1 k2 k3 a b c n : nat) :
  k1 + k2 + k3 ≤ 1 → a + b + c ≤ n →
  k1 + a + (k2 + b) + (k3 + c) ≤ S n
  ∧ (k1 + a + (k2 + b) + (k3 + c) = S n
     ↔ k1 + k2 + k3 = 1 ∧ a + b + c = n).
Proof. lia. Qed.

(** X9: the three metrics never add up to more than the total, and they
    add up to it exactly when every record carries one of the three
    labels: a record with another label is in the total and in none of
    the three. *)
Theorem metrics_partition (l : list Row) :
  let shown := length (where_sentiment (u "positive") l)
               + length (where_sentiment (u "negative") l)
               + length (where_sentiment (u "neutral") l) in
  shown ≤ length l
  ∧ (shown = length l ↔ Forall (λ r, sentiment r ∈ LABELS) l).
Proof.
  induction l as [|r l [IHle IHeq]].
  - split; [cbn; lia|]. split; [constructor|reflexivity].
  - cbv zeta in *. rewrite !length_where_cons.
    destruct (row_class (sentiment r)) as [Hle Hk]. cbv zeta in Hle, Hk.
    destruct (partition_arith _ _ _ _ _ _ _ Hle IHle) as [Hsum Hiff].
    cbn [length]. split; [exact Hsum|]. split.
    + intros H. apply Hiff in H as [Hr Hl]. constructor.
      * now apply Hk.
      * now apply IHeq.
    + intros Hall. apply Hiff. inversion Hall as [|? ? Hr Hl]; subst. split.
      * now apply Hk.
      * now apply IHeq.
Qed.

Lemma where_sentiment_nonempty label (l : list Row) :
  length (where_sentiment label l) ≠ 0 ↔ ∃ r, r ∈ l ∧ sentiment r = label.
Proof.
  induction l as [|r l IH].
  - split; [easy|]. intros (r & Hr & _). now apply elem_of_nil in Hr.
  - rewrite length_where_cons. case_bool_decide as Hr.
    + split; [|cbn; lia]. intros _. exists r. split; [now left|exact Hr].
    + cbn [Nat.add]. rewrite IH. split.
      * intros (r' & Hr' & Heq). exists r'. split; [now right|exact Heq].
      * intros (r' & Hr' & Heq). apply elem_of_cons in Hr' as [->|Hr'];
          [contradiction|]. now exists r'.
Qed.

(** X10: the charts and the metrics agree: the count the pie and the
    bar chart are given for a label is the number the metric for that
    label shows (zero when the label has no entry), and a label has an
    entry exactly when some record carries it. *)
Theorem value_counts_agrees_with_metrics (l : list Row) (label : str) :
  default 0 (value_counts (sentiment <$> l) !! label)
  = length (where_sentiment label l)
  ∧ (is_Some (value_counts (sentiment <$> l) !! label)
     ↔ ∃ r, r ∈ l ∧ sentiment r = label).
Proof.
  rewrite value_counts_lookup, <- where_sentiment_nonempty.
  destruct (length (where_sentiment label l)); cbn [default].
  - split; [reflexivity|]. split; [intros [? [=]]|congruence].
  - split; [reflexivity|]. split; [lia|eauto].
Qed.

Lemma total_count_step (m : gmap str nat) (x : str) :
  map_fold (λ _ v acc, v + acc) 0 (<[x := S (default 0 (m !! x))]> m)
  = S (map_fold (λ _ v acc, v + acc) 0 m).
Proof.
  destruct (m !! x) as [d|] eqn:Hx; cbn [default].
  - rewrite <- insert_delete_eq.
    rewrite map_fold_insert_L; [|intros; lia|apply lookup_delete_eq].
    rewrite (map_fold_delete_L _ _ x d m); [|intros; lia|exact Hx].
    unfold id. reflexivity.
  - rewrite map_fold_insert_L; [reflexivity|intros; lia|exact Hx].
Qed.

Lemma total_count_foldl (xs : list str) (m : gmap str nat) :
  map_fold (λ _ v acc, v + acc) 0
    (foldl (λ m x, <[x := S (default 0 (m !! x))]> m) m xs)
  = length xs + map_fold (λ _ v acc, v + acc) 0 m.
Proof.
  revert m. induction xs as [|x xs IH]; intros m; [reflexivity|].
  cbn [foldl length]. rewrite IH, total_count_step. lia.
Qed.

(** X11: the counts per label add up to the number of records: every
    record is counted under exactly one label, whatever the labels
    are. *)
Theorem value_counts_total (l : list Row) :
  map_fold (λ _ v acc, v + acc) 0 (value_counts (sentiment <$> l))
  = length l.
Proof.
  unfold value_counts. rewrite total_count_foldl, map_fold_empty.
  rewrite length_fmap. lia.
Qed.

(** ** The second tab *)

(** What the second tab does when the file holds at least one
    well-formed line. *)
Lemma tab2_present (to_hour : str → option Z) now (clear_all_btn : bool)
    content shown sent r rs :
  foldl load_line [] (readlines content) = r :: rs →
  let l := r :: rs in
  let top :=
    shown ++ [StMetric (u "Total Messages") (length l);
              StMetric (u "Positive " ++ [128522%N])
                (length (where_sentiment (u "positive") l));
              StMetric (u "Negative " ++ [128542%N])
                (length (where_sentiment (u "negative") l));
              StMetric (u "Neutral " ++ [128528%N])
                (length (where_sentiment (u "neutral") l));
              StPie (value_counts (sentiment <$> l));
              StBar (value_counts (sentiment <$> l))] in
  let finish := λ seen : list UiEvent,
    let seen' :=
      seen ++ [StDownload (to_csv (mkDF COLUMNS l))
                 (u "sentiment_data_" ++ strftime_file now ++ u ".csv")] in
    if clear_all_btn
    then (Raise RerunException,
          mkWorld None (seen' ++ [StSuccess (u "All data cleared!")]) sent)
    else (Ok tt, mkWorld (Some content) (seen' ++ [StDataframe (rev l)]) sent) in
  tab2 to_hour now clear_all_btn (mkWorld (Some content) shown sent)
  = if bool_decide (1 < length l) then
      match hourly_series to_hour l with
      | Some series => finish (top ++ [StLine series])
      | None => (Raise ValueError, mkWorld (Some content) top sent)
      end
    else finish top.
Proof.
  intros Hrows l top finish.
  unfold tab2, mbind, M_bind.
  rewrite load_data_present, Hrows.
  change (DataFrame_records (r :: rs)) with (mkDF COLUMNS l).
  change (empty_df (mkDF COLUMNS l)) with false.
  cbv beta iota. cbn [rows columns].
  unfold st at 1 2 3 4 5 6. cbv beta iota. cbn [file ui posted].
  rewrite <- !app_assoc. cbn [app]. fold top.
  assert (∀ seen,
            export_data (mkWorld (Some content) seen sent)
            = (Ok (to_csv (mkDF COLUMNS l)), mkWorld (Some content) seen sent))
    as Hexport.
  { intros seen. unfold export_data, mbind, M_bind.
    now rewrite load_data_present, Hrows. }
  subst finish. cbv beta zeta.
  case_bool_decide; [destruct (hourly_series to_hour l) as [series|]|];
    [unfold st at 1|reflexivity|unfold mret at 1, M_ret at 1];
    cbv beta iota; cbn [file ui posted]; rewrite Hexport;
    destruct clear_all_btn; reflexivity.
Qed.

Lemma tab2_no_rows (to_hour : str → option Z) now clear_all_btn w :
  loaded w = [] →
  tab2 to_hour now clear_all_btn w
  = (Ok tt,
     mkWorld (file w)
       (ui w ++ [StInfo (u "No data available. Analyze some messages first!")])
       (posted w)).
Proof.
  destruct w as [[content|] shown sent]; [|reflexivity].
  rewrite loaded_eq. cbn [file ui posted]. intros Hrows.
  unfold tab2, mbind, M_bind. rewrite load_data_present, Hrows. reflexivity.
Qed.

Lemma hourly_series_None (to_hour : str → option Z) (l : list Row) r :
  r ∈ l → to_hour (timestamp r) = None → hourly_series to_hour l = None.
Proof.
  intros Hr Hnone. unfold hourly_series.
  rewrite (mapM_None_2 to_hour (timestamp <$> l)); [reflexivity|].
  apply list.Exists_exists. exists (timestamp r). split; [|exact Hnone].
  apply list_elem_of_fmap. exists r. split; [reflexivity|exact Hr].
Qed.

(** X12: when the file exists but holds no well-formed line, the second
    tab behaves as with no file at all: it shows its notice and nothing
    else, and leaves the file as it is, whether or not the clear-all
    button is taken as pressed (the button is not drawn). *)
Theorem tab2_notice_without_records (to_hour : str → option Z) now
    clear_all_btn w :
  loaded w = [] →
  tab2 to_hour now clear_all_btn w
  = (Ok tt,
     mkWorld (file w)
       (ui w ++ [StInfo (u "No data available. Analyze some messages first!")])
       (posted w)).
Proof. apply tab2_no_rows. Qed.

Lemma tab2_notice_without_records_witness :
  let w := store (Some (u "not a record" ++ [LF] ++ u "a|b" ++ [LF])) in
  tab2 (λ _, None) (mkDatetime 2024 3 7 9 5 0) true w
  = (Ok tt,
     mkWorld (file w)
       (ui w ++ [StInfo (u "No data available. Analyze some messages first!")])
       (posted w)).
Proof.
  intros w.
  apply (tab2_notice_without_records (λ _, None) (mkDatetime 2024 3 7 9 5 0)
           true w).
  reflexivity.
Defined.

(** X13: the second tab sends no request, and unless the clear-all
    button is pressed it leaves the file as it is, also when it
    raises. *)
Theorem tab2_reads_only (to_hour : str → option Z) now clear_all_btn w :
  posted (run (tab2 to_hour now clear_all_btn) w) = posted w
  ∧ file (run (tab2 to_hour now false) w) = file w.
Proof.
  destruct (loaded w) as [|r rs] eqn:Hrows.
  - unfold run. rewrite !tab2_no_rows by exact Hrows. easy.
  - destruct w as [[content|] shown sent]; [|discriminate].
    rewrite loaded_eq in Hrows. cbn [file] in Hrows.
    unfold run. rewrite !(tab2_present _ _ _ _ _ _ _ _ Hrows).
    cbv zeta. case_bool_decide;
      [destruct (hourly_series to_hour (r :: rs))|];
      destruct clear_all_btn; easy.
Qed.

(** X14: when the table has more than one record and the timestamp of
    one of them cannot be read as a date, the second tab shows the four
    metrics and the two charts and then raises; the download and the
    table are not reached, and the file is as before. *)
Theorem tab2_unreadable_timestamp (to_hour : str → option Z) now
    clear_all_btn w r :
  1 < length (loaded w) → r ∈ loaded w → to_hour (timestamp r) = None →
  ∃ evs,
    tab2 to_hour now clear_all_btn w
    = (Raise ValueError, mkWorld (file w) (ui w ++ evs) (posted w))
    ∧ length evs = 6.
Proof.
  intros Hlen Hr Hnone.
  destruct (loaded w) as [|r0 rs] eqn:Hrows; [cbn in Hlen; lia|].
  destruct w as [[content|] shown sent]; [|discriminate].
  rewrite loaded_eq in Hrows. cbn [file] in Hrows.
  rewrite (tab2_present _ _ _ _ _ _ _ _ Hrows). cbv zeta.
  rewrite bool_decide_eq_true_2 by exact Hlen.
  rewrite (hourly_series_None _ _ _ Hr Hnone).
  eexists. split; reflexivity.
Qed.

Lemma tab2_unreadable_timestamp_witness :
  let w := store (Some (u "yesterday|neutral|ok" ++ [LF]
                        ++ u "2024-03-07 09:05:00|positive|fine" ++ [LF])) in
  let to_hour := λ s : str, if bool_decide (s = u "yesterday") then None
                            else Some 474825%Z in
  ∃ evs,
    tab2 to_hour (mkDatetime 2024 3 7 9 6 0) false w
    = (Raise ValueError, mkWorld (file w) (ui w ++ evs) (posted w))
    ∧ length evs = 6.
Proof.
  intros w to_hour.
  apply (tab2_unreadable_timestamp to_hour (mkDatetime 2024 3 7 9 6 0) false w
           (mkRow (u "yesterday") (u "neutral") (u "ok"))).
  - vm_compute. lia.
  - vm_compute. constructor.
  - reflexivity.
Defined.

(** X15: with a single record the time series is not computed, so its
    timestamp is never read as a date: the second tab does the same
    whatever the date parser makes of it. *)
Theorem tab2_single_record_needs_no_date (to_hour1 to_hour2 : str → option Z)
    now clear_all_btn w :
  length (loaded w) ≤ 1 →
  tab2 to_hour1 now clear_all_btn w = tab2 to_hour2 now clear_all_btn w.
Proof.
  intros Hlen. destruct (loaded w) as [|r rs] eqn:Hrows.
  - now rewrite !tab2_no_rows.
  - destruct w as [[content|] shown sent]; [|discriminate].
    rewrite loaded_eq in Hrows. cbn [file] in Hrows.
    rewrite !(tab2_present _ _ _ _ _ _ _ _ Hrows). cbv zeta.
    rewrite bool_decide_eq_false_2 by lia. reflexivity.
Qed.

Lemma tab2_single_record_needs_no_date_witness :
  let w := store (Some (u "yesterday|neutral|ok" ++ [LF])) in
  tab2 (λ _, None) (mkDatetime 2024 3 7 9 6 0) false w
  = tab2 (λ _, Some 0%Z) (mkDatetime 2024 3 7 9 6 0) false w.
Proof.
  intros w.
  apply (tab2_single_record_needs_no_date (λ _, None) (λ _, Some 0%Z)
           (mkDatetime 2024 3 7 9 6 0) false w).
  vm_compute. lia.
Defined.



(** ** What a loaded record can hold *)

Lemma lstrip_suffix s : ∃ pre, s = pre ++ lstrip s.
Proof.
  induction s as [|c s [pre IH]]; [now exists []|].
  cbn [lstrip]. destruct (isspace c).
  - exists (c :: pre). cbn [app]. now rewrite <- IH.
  - now exists [].
Qed.

Lemma lstrip_head_nonspace s c rest :
  lstrip s = c :: rest → isspace c = false.
Proof.
  induction s as [|d s IH]; [discriminate|].
  cbn [lstrip]. destruct (isspace d) eqn:Hd; [exact IH|].
  now intros [= <- <-].
Qed.

Lemma rstrip_prefix s : ∃ post, s = rstrip s ++ post.
Proof.
  unfold rstrip. destruct (lstrip_suffix (rev s)) as [pre Hpre].
  exists (rev pre).
  rewrite <- (rev_involutive s) at 1. rewrite Hpre at 1.
  now rewrite rev_app_distr.
Qed.

Lemma no_trailing_space_rstrip s : no_trailing_space (rstrip s) = true.
Proof.
  unfold no_trailing_space, rstrip. rewrite rev_involutive.
  destruct (lstrip (rev s)) as [|c rest] eqn:E; [reflexivity|].
  now rewrite (lstrip_head_nonspace _ _ _ E).
Qed.

Lemma strip_infix s : ∃ pre post, s = pre ++ strip s ++ post.
Proof.
  unfold strip. destruct (lstrip_suffix s) as [pre Hpre].
  destruct (rstrip_prefix (lstrip s)) as [post Hpost].
  exists pre, post. now rewrite <- Hpost.
Qed.

Lemma concat_lines t : concat (lines t) = t.
Proof.
  induction t as [|c t IH]; [reflexivity|].
  cbn [lines]. destruct (c =? LF)%N.
  - cbn [concat app]. now rewrite IH.
  - destruct (lines t) as [|l ls]; cbn [concat app] in *; now rewrite <- IH.
Qed.

Lemma lines_shape t line :
  line ∈ lines t →
  ∃ l, occurrences LF l = 0 ∧ (line = l ++ [LF] ∨ line = l).
Proof.
  revert line. induction t as [|c t IH]; intros line.
  - intros H. now apply elem_of_nil in H.
  - cbn [lines]. destruct (N.eqb_spec c LF) as [->|Hc].
    + intros [->|H]%elem_of_cons; [|now apply IH].
      exists []. split; [reflexivity|now left].
    + assert (occurrences LF [c] = 0) as Hocc.
      { unfold occurrences. cbn [List.filter].
        destruct (N.eqb_spec LF c); [congruence|reflexivity]. }
      destruct (lines t) as [|l0 ls] eqn:E.
      * intros ->%list_elem_of_singleton. exists [c]. split; [exact Hocc|now right].
      * intros [->|H]%elem_of_cons.
        -- destruct (IH l0) as (l & Hl & Hshape); [now left|].
           exists (c :: l). split.
           ++ change (c :: l) with ([c] ++ l).
              now rewrite occurrences_app, Hocc, Hl.
           ++ destruct Hshape as [->| ->]; [now left|now right].
        -- apply IH. now right.
Qed.

Lemma universal_newlines_no_CR_fuel n s :
  length s ≤ n → occurrences CR (universal_newlines s) = 0.
Proof.
  revert s. induction n as [|n IH]; intros s Hn.
  - destruct s; [reflexivity|cbn in Hn; lia].
  - destruct s as [|c s]; [reflexivity|]. cbn [length] in Hn.
    cbn [universal_newlines]. destruct (N.eqb_spec c CR) as [->|Hc].
    + change (LF :: ?x) with ([LF] ++ x). rewrite occurrences_app.
      destruct s as [|d s]; [reflexivity|].
      cbn [length] in Hn.
      destruct (d =? LF)%N; [rewrite IH by lia|rewrite IH by (cbn; lia)];
        reflexivity.
    + change (c :: ?x) with ([c] ++ x). rewrite occurrences_app, IH by lia.
      unfold occurrences. cbn [List.filter].
      destruct (N.eqb_spec CR c); [congruence|reflexivity].
Qed.

Lemma universal_newlines_no_CR s : occurrences CR (universal_newlines s) = 0.
Proof. apply (universal_newlines_no_CR_fuel (length s)). lia. Qed.

Lemma occurrences_concat_le c (ls : list str) line :
  line ∈ ls → occurrences c line ≤ occurrences c (concat ls).
Proof.
  induction ls as [|l ls IH]; [intros H; now apply elem_of_nil in H|].
  cbn [concat]. rewrite occurrences_app.
  intros [->|H]%elem_of_cons; [lia|]. apply IH in H. lia.
Qed.

Lemma single_line_occurrences s :
  single_line s = true ↔ occurrences LF s = 0 ∧ occurrences CR s = 0.
Proof.
  unfold single_line, occurrences. rewrite negb_true_iff.
  induction s as [|c s IH]; [easy|].
  cbn [existsb List.filter]. unfold is_linebreak at 1.
  rewrite (N.eqb_sym LF c), (N.eqb_sym CR c).
  destruct (c =? LF)%N, (c =? CR)%N; cbn [orb length]; try easy.
Qed.

Lemma strip_line_single t line :
  occurrences CR t = 0 → line ∈ lines t → single_line (strip line) = true.
Proof.
  intros HCR Hline. apply single_line_occurrences.
  destruct (strip_infix line) as (pre & post & Hinfix).
  assert (no_trailing_space (strip line) = true) as Hnts
    by apply no_trailing_space_rstrip.
  remember (strip line) as S eqn:HS. clear HS.
  split.
  - destruct (lines_shape t line Hline) as (l & Hl & [Hshape|Hshape]).
    + rewrite Hshape in Hinfix.
      destruct post as [|p post _] using rev_ind.
      * rewrite app_nil_r in Hinfix.
        destruct S as [|s0 S _] using rev_ind; [reflexivity|].
        rewrite app_assoc in Hinfix. apply app_inj_tail in Hinfix as [_ <-].
        unfold no_trailing_space in Hnts. rewrite rev_app_distr in Hnts.
        discriminate.
      * rewrite !app_assoc in Hinfix. apply app_inj_tail in Hinfix as [Hl' _].
        rewrite Hl', !occurrences_app in Hl. lia.
    + subst l. rewrite Hinfix, !occurrences_app in Hl. lia.
  - pose proof (occurrences_concat_le CR _ _ Hline) as Hle.
    rewrite concat_lines, HCR in Hle.
    rewrite Hinfix, !occurrences_app in Hle. lia.
Qed.

Lemma split_three_inv s :
  length (split PIPE 2 s) = 3 →
  ∃ a b c, split PIPE 2 s = [a; b; c]
           ∧ s = a ++ u "|" ++ b ++ u "|" ++ c
           ∧ occurrences PIPE a = 0 ∧ occurrences PIPE b = 0.
Proof.
  cbn [split]. destruct (partition PIPE s) as [[a rest]|] eqn:E1; [|discriminate].
  destruct (partition PIPE rest) as [[b c]|] eqn:E2; [|discriminate].
  intros _. apply partition_Some in E1 as [-> Ha].
  apply partition_Some in E2 as [-> Hb].
  now exists a, b, c.
Qed.

Lemma loaded_row_inv w r :
  r ∈ loaded w →
  occurrences PIPE (timestamp r) = 0
  ∧ occurrences PIPE (sentiment r) = 0
  ∧ single_line (timestamp r) = true
  ∧ single_line (sentiment r) = true
  ∧ single_line (message r) = true
  ∧ ∃ content line,
      file w = Some content ∧ line ∈ readlines content
      ∧ strip line = timestamp r ++ u "|" ++ sentiment r ++ u "|" ++ message r.
Proof.
  rewrite loaded_eq. destruct (file w) as [content|] eqn:Hfile;
    [|intros H; now apply elem_of_nil in H].
  rewrite foldl_load_line_filter.
  intros (line & -> & Hin)%list_elem_of_fmap.
  apply list_elem_of_In, filter_In in Hin as [Hin Hlen].
  apply list_elem_of_In in Hin. apply bool_decide_eq_true in Hlen.
  apply three_parts_iff in Hlen.
  destruct (split_three_inv _ Hlen) as (a & b & c & Hsplit & Hs & Ha & Hb).
  assert (single_line (strip line) = true) as Hsingle.
  { apply (strip_line_single (universal_newlines content));
      [apply universal_newlines_no_CR|exact Hin]. }
  unfold row_of_line. rewrite Hsplit.
  change ([a; b; c] !!! 0) with a. change ([a; b; c] !!! 1) with b.
  change ([a; b; c] !!! 2) with c. cbn [timestamp sentiment message].
  rewrite Hs, !single_line_app in Hsingle.
  apply andb_true_iff in Hsingle as [Hsa Hsingle].
  apply andb_true_iff in Hsingle as [_ Hsingle].
  apply andb_true_iff in Hsingle as [Hsb Hsingle].
  apply andb_true_iff in Hsingle as [_ Hsc].
  repeat (split; [assumption|]).
  exists content, line. easy.
Qed.

(** X17: whatever the file holds, a record that a load returns has no
    delimiter in its timestamp and in its label and no line break in
    any of its three fields, and the three fields joined by the
    delimiter are one line of the file with the white space around it
    removed. *)
Theorem loaded_fields_clean w r :
  r ∈ loaded w →
  occurrences PIPE (timestamp r) = 0
  ∧ occurrences PIPE (sentiment r) = 0
  ∧ single_line (timestamp r) = true
  ∧ single_line (sentiment r) = true
  ∧ single_line (message r) = true
  ∧ ∃ content line,
      file w = Some content ∧ line ∈ readlines content
      ∧ strip line = timestamp r ++ u "|" ++ sentiment r ++ u "|" ++ message r.
Proof. apply loaded_row_inv. Qed.

Lemma loaded_fields_clean_witness :
  let w := store (Some (u "  t|x|a|b  " ++ [CR; LF] ++ u "junk")) in
  let r := mkRow (u "t") (u "x") (u "a|b") in
  occurrences PIPE (timestamp r) = 0
  ∧ occurrences PIPE (sentiment r) = 0
  ∧ single_line (timestamp r) = true
  ∧ single_line (sentiment r) = true
  ∧ single_line (message r) = true
  ∧ ∃ content line,
      file w = Some content ∧ line ∈ readlines content
      ∧ strip line = timestamp r ++ u "|" ++ sentiment r ++ u "|" ++ message r.
Proof.
  intros w r. apply (loaded_fields_clean w r). vm_compute. constructor.
Defined.

(** ** The lines of the export *)

Lemma occurrences_cons c d s :
  occurrences c (d :: s) = (if (c =? d)%N then 1 else 0) + occurrences c s.
Proof. unfold occurrences. cbn [List.filter]. now destruct (c =? d)%N. Qed.

Lemma mjoin_cons {A} (x : list A) (xs : list (list A)) :
  mjoin (x :: xs) = x ++ mjoin xs.
Proof. reflexivity. Qed.

Lemma occurrences_quoted s :
  occurrences LF
    (mjoin ((λ c, if bool_decide (c = DQUOTE) then [DQUOTE; DQUOTE] else [c])
              <$> s))
  = occurrences LF s.
Proof.
  induction s as [|c s IH]; [reflexivity|].
  rewrite fmap_cons, mjoin_cons, occurrences_app, IH, occurrences_cons.
  f_equal. case_bool_decide as Hc; [now subst c|].
  rewrite occurrences_cons. apply Nat.add_0_r.
Qed.

Lemma occurrences_csv_field s : occurrences LF (csv_field s) = occurrences LF s.
Proof.
  unfold csv_field. destruct (existsb needs_quote s); [|reflexivity].
  rewrite !occurrences_app, occurrences_quoted.
  change (occurrences LF [DQUOTE]) with 0. lia.
Qed.

Lemma occurrences_csv_line_cells r :
  single_line (timestamp r) = true → single_line (sentiment r) = true →
  single_line (message r) = true →
  occurrences LF (csv_line (cells r)) = 1.
Proof.
  intros [Ht _]%single_line_occurrences [Hs _]%single_line_occurrences
         [Hm _]%single_line_occurrences.
  unfold csv_line, cells. cbn [fmap list_fmap join].
  rewrite !occurrences_app, !occurrences_csv_field, Ht, Hs, Hm.
  reflexivity.
Qed.

Lemma occurrences_csv_rows (l : list Row) :
  (∀ r, r ∈ l → occurrences LF (csv_line (cells r)) = 1) →
  occurrences LF (mjoin ((λ r, csv_line (cells r)) <$> l)) = length l.
Proof.
  induction l as [|r l IH]; intros H; [reflexivity|].
  rewrite fmap_cons, mjoin_cons. cbn [length].
  rewrite occurrences_app, H by now left.
  rewrite IH; [reflexivity|]. intros r' Hr'. apply H. now right.
Qed.

(** X18: the export always has one line more than there are records:
    the header line (empty when the file holds no well-formed line) and
    one line for each record, none of which is broken in two. *)
Theorem export_one_line_per_record w :
  ∃ csv,
    result export_data w = Ok csv
    ∧ occurrences LF csv = 1 + length (loaded w).
Proof.
  rewrite result_export_data, result_load_data.
  eexists. split; [reflexivity|].
  assert (occurrences LF (mjoin ((λ r, csv_line (cells r)) <$> loaded w))
          = length (loaded w)) as Hrows.
  { apply occurrences_csv_rows. intros r Hr.
    apply loaded_row_inv in Hr as (_ & _ & Ht & Hs & Hm & _).
    now apply occurrences_csv_line_cells. }
  destruct (file w) eqn:Hfile.
  - unfold to_csv, DataFrame_records. cbn [columns rows].
    rewrite occurrences_app, Hrows.
    now destruct (loaded w).
  - rewrite loaded_eq, Hfile. reflexivity.
Qed.

(** ** The store over time *)

(** X19: in every state the program can bring the store to, by any
    appends and clearings, the file is absent, empty or ended by a line
    feed, and one more append, whatever its text and label, leaves the
    records loaded before in place and in order: what it adds comes
    after them. *)
Theorem store_append_only ops now msg label :
  let w := foldl apply_op (store None) ops in
  newline_terminated (file w) = true
  ∧ ∃ extra,
      loaded (run (save_to_file now msg label) w) = loaded w ++ extra.
Proof.
  intros w.
  assert (newline_terminated (file w) = true) as Hw
    by now apply store_invariant.
  split; [exact Hw|]. now apply loaded_save_prefix.
Qed.

(** ** The hourly series *)









